(** * MPU preparation backend: text analysis, session scoring, checklist

    A shallow embedding of the request handlers of [main.py] and of the
    record shapes of [schemas.py], followed by the properties of the text
    analyzer, of the session scorer and of the persistence fall-backs.

    Conventions of the embedding.
    - A Python [str] is the list of its Unicode code points.
    - A Python [int] is a [Z].
    - A Python [float] is the rational it denotes; every arithmetic
      operation rounds its exact result to binary64 (53 bits, ties to even,
      gradual underflow).  Overflow to infinity is not represented: every
      quantity computed by the handlers is bounded by a length or by 100.
    - A handler is a tree of persistence calls ([prog]); [run] executes it
      against an arbitrary gateway and records the calls that were made. *)

From Stdlib Require Import String Ascii.
From Stdlib Require Import ZArith NArith QArith Qround Qpower Qreduction Qminmax Qabs.
From Stdlib Require Import Lqa Lia Bool List.
From Stdlib Require Import Floats.
Import ListNotations.

(* ================================================================== *)
(** * Part I: the embedding *)
(* ================================================================== *)

(** ** Binary64 arithmetic *)

Module B64.

Local Open Scope Q_scope.

Definition float : Type := Q.

Definition prec : Z := 53.
Definition emin : Z := -1074.

Definition pow2 (z : Z) : Q := 2 ^ z.

(** Nearest integer, ties to the even one. *)
Definition rne (x : Q) : Z :=
  let f := Qfloor x in
  match Qcompare (x - inject_Z f) (1 # 2) with
  | Lt => f
  | Gt => (f + 1)%Z
  | Eq => if Z.even f then f else (f + 1)%Z
  end.

(** [floor (log2 q)] for a positive [q]. *)
Definition ilog2 (q : Q) : Z :=
  let l := (Z.log2 (Qnum q) - Z.log2 (Zpos (Qden q)))%Z in
  if Qle_bool (pow2 l) q then l else (l - 1)%Z.

(** The exponent of the last place of the binade holding [q]. *)
Definition ulp_exp (q : Q) : Z := Z.max (ilog2 q - (prec - 1)) emin.

Definition rnd_pos (q : Q) : Q :=
  inject_Z (rne (q / pow2 (ulp_exp q))) * pow2 (ulp_exp q).

(** Round to nearest binary64 value, ties to even. *)
Definition rnd (q : Q) : float :=
  match Qnum q with
  | Z0 => 0
  | Zpos _ => Qred (rnd_pos q)
  | Zneg _ => Qred (- rnd_pos (- q))
  end.

(** A decimal literal of the source, such as [0.15]. *)
Definition lit (q : Q) : float := rnd q.

(** [float(z)] *)
Definition of_int (z : Z) : float := rnd (inject_Z z).

Definition add (x y : float) : float := rnd (x + y).
Definition sub (x y : float) : float := rnd (x - y).
Definition mul (x y : float) : float := rnd (x * y).
(** Quotient by a non-zero divisor; the callers test the divisor. *)
Definition div (x y : float) : float := rnd (x / y).

Definition leb (x y : float) : bool := Qle_bool x y.
Definition ltb (x y : float) : bool := negb (Qle_bool y x).
Definition geb (x y : float) : bool := Qle_bool y x.
Definition gtb (x y : float) : bool := negb (Qle_bool x y).

(** [min(a, b)] and [max(a, b)] of two arguments: the first argument is
    kept unless the second is strictly smaller (resp. larger). *)
Definition min (a b : float) : float := if ltb b a then b else a.
Definition max (a b : float) : float := if gtb b a then b else a.

(** [round(x, 1)]: the decimal with one fractional digit nearest to the
    exact value of [x] (ties to even), converted back to binary64. *)
Definition round1 (x : float) : float := rnd (inject_Z (rne (x * 10)) / 10).

(** The value denoted by a kernel float, when finite. *)
Definition of_prim (f : PrimFloat.float) : option Q :=
  match Prim2SF f with
  | S754_zero _ => Some 0
  | S754_finite s m e =>
      Some (Qred ((if s then - inject_Z (Zpos m) else inject_Z (Zpos m)) * pow2 e))
  | _ => None
  end.

End B64.

Declare Scope b64_scope.
Delimit Scope b64_scope with b64.
Infix "+" := B64.add : b64_scope.
Infix "-" := B64.sub : b64_scope.
Infix "*" := B64.mul : b64_scope.
Infix "<?" := B64.ltb : b64_scope.
Infix ">=?" := B64.geb (at level 70) : b64_scope.

(** ** Strings *)

Definition codepoint : Type := N.
Definition str : Type := list codepoint.

Module Str.

Local Open Scope N_scope.

(** Decoding of the UTF-8 bytes of a literal into code points. *)
Fixpoint decode (bs : list N) : str :=
  match bs with
  | [] => []
  | b :: rest =>
      if b <? 128 then b :: decode rest
      else if b <? 224 then
        match rest with
        | b1 :: rest' => ((b - 192) * 64 + (b1 - 128)) :: decode rest'
        | _ => []
        end
      else if b <? 240 then
        match rest with
        | b1 :: b2 :: rest' =>
            ((b - 224) * 4096 + (b1 - 128) * 64 + (b2 - 128)) :: decode rest'
        | _ => []
        end
      else
        match rest with
        | b1 :: b2 :: b3 :: rest' =>
            ((b - 240) * 262144 + (b1 - 128) * 4096 + (b2 - 128) * 64 + (b3 - 128))
              :: decode rest'
        | _ => []
        end
  end.

(** [ch.isspace()], the characters removed by [str.strip()]. *)
Definition isspace (c : codepoint) : bool :=
  ((9 <=? c) && (c <=? 13)) || ((28 <=? c) && (c <=? 32))
  || (c =? 133) || (c =? 160) || (c =? 5760)
  || ((8192 <=? c) && (c <=? 8202))
  || (c =? 8232) || (c =? 8233) || (c =? 8239) || (c =? 8287) || (c =? 12288).

Fixpoint lstrip (s : str) : str :=
  match s with
  | [] => []
  | c :: rest => if isspace c then lstrip rest else s
  end.

Definition rstrip (s : str) : str := rev (lstrip (rev s)).

(** [s.strip()] *)
Definition strip (s : str) : str := rstrip (lstrip s).

Fixpoint startswith (p s : str) : bool :=
  match p, s with
  | [], _ => true
  | _ :: _, [] => false
  | a :: p', b :: s' => (a =? b) && startswith p' s'
  end.

(** [p in s] *)
Fixpoint contains (p s : str) : bool :=
  startswith p s ||
  match s with
  | [] => false
  | _ :: s' => contains p s'
  end.

(** [sep.join(parts)] *)
Fixpoint join (sep : str) (parts : list str) : str :=
  match parts with
  | [] => []
  | [p] => p
  | p :: rest => p ++ sep ++ join sep rest
  end.

Definition eqb (a b : str) : bool :=
  if list_eq_dec N.eq_dec a b then true else false.

(** [str.lower()] on the Basic Latin and Latin-1 Supplement blocks; code
    points of other blocks are left as they are. *)
Definition lower_cp (c : codepoint) : codepoint :=
  if ((65 <=? c) && (c <=? 90)) || ((192 <=? c) && (c <=? 222) && negb (c =? 215))
  then c + 32 else c.

Definition lower_latin1 (s : str) : str := map lower_cp s.

End Str.

(** The [str] written by a literal of the source. *)
Definition u (s : string) : str :=
  Str.decode (map N_of_ascii (list_ascii_of_string s)).

(** ** Values and dictionaries *)

(** The values a JSON body or a stored document holds. *)
#[warnings="-register-all"]
Inductive value : Type :=
| VNone
| VBool (b : bool)
| VInt (z : Z)
| VFloat (x : B64.float)
| VStr (s : str)
| VList (l : list value)
| VDict (d : list (str * value))
| VObjectId (oid : str).

(** A [dict] keeps its keys in insertion order. *)
Definition dict : Type := list (str * value).

Fixpoint dict_lookup (d : dict) (k : str) : option value :=
  match d with
  | [] => None
  | (k', v) :: rest => if Str.eqb k' k then Some v else dict_lookup rest k
  end.

(** [d.get(k, default)]; [d.get(k)] is [dict_get d k VNone]. *)
Definition dict_get (d : dict) (k : str) (default : value) : value :=
  match dict_lookup d k with
  | Some v => v
  | None => default
  end.

(** [d[k] = v] *)
Fixpoint dict_set (d : dict) (k : str) (v : value) : dict :=
  match d with
  | [] => [(k, v)]
  | (k', v') :: rest =>
      if Str.eqb k' k then (k', v) :: rest else (k', v') :: dict_set rest k v
  end.

(** [del d[k]] for a key that is present *)
Definition dict_del (d : dict) (k : str) : dict :=
  filter (fun kv => negb (Str.eqb (fst kv) k)) d.

(** [bool(v)] *)
Definition truthy (v : value) : bool :=
  match v with
  | VNone => false
  | VBool b => b
  | VInt z => negb (z =? 0)%Z
  | VFloat x => negb (Qeq_bool x 0)
  | VStr s => negb (Nat.eqb (length s) 0)
  | VList l => negb (Nat.eqb (length l) 0)
  | VDict d => negb (Nat.eqb (length d) 0)
  | VObjectId _ => true
  end.

(** ** Record shapes ([schemas.py]) *)

Record TrainingSession : Type := {
  ts_user_id : str;
  ts_status : str;
  ts_questions : list dict;
  ts_answers : option (list dict);
  ts_score : option B64.float;
  ts_feedback : option str
}.

Record ChecklistItem : Type := {
  ci_user_id : str;
  ci_title : str;
  ci_completed : bool
}.

Record AnalysisReport : Type := {
  ar_user_id : option str;
  ar_input_text : str;
  ar_sentiment : str;
  ar_risk_score : B64.float;
  ar_key_themes : list str;
  ar_recommendations : list str
}.

Inductive record : Type :=
| RTrainingSession (t : TrainingSession)
| RChecklistItem (c : ChecklistItem)
| RAnalysisReport (r : AnalysisReport).

(** ** Handlers as trees of persistence calls *)

Inductive exn : Type :=
| HTTPException (status_code : Z) (detail : str)
| ZeroDivisionError
| TypeError
| ValidationError
| GatewayError (msg : str).

Inductive outcome (A : Type) : Type :=
| Returned (a : A)
| Raised (e : exn).
Arguments Returned {A} a.
Arguments Raised {A} e.

Inductive prog (A : Type) : Type :=
| Ret (a : A)
| Raise (e : exn)
| CreateDocument (collection_name : str) (data : record)
    (k : outcome str -> prog A)
| GetDocuments (collection_name : str) (filter_dict : dict) (limit : Z)
    (k : outcome (list dict) -> prog A).
Arguments Ret {A} a.
Arguments Raise {A} e.
Arguments CreateDocument {A} collection_name data k.
Arguments GetDocuments {A} collection_name filter_dict limit k.

Fixpoint bind {A B : Type} (p : prog A) (f : A -> prog B) : prog B :=
  match p with
  | Ret a => f a
  | Raise e => Raise e
  | CreateDocument c d k => CreateDocument c d (fun o => bind (k o) f)
  | GetDocuments c q l k => GetDocuments c q l (fun o => bind (k o) f)
  end.

Notation "x <- c ;; k" := (bind c (fun x => k))
  (at level 61, c at next level, right associativity).

(** [try: body  except Exception: handler] *)
Fixpoint try_except {A : Type} (body : prog A) (handler : exn -> prog A) : prog A :=
  match body with
  | Ret a => Ret a
  | Raise e => handler e
  | CreateDocument c d k => CreateDocument c d (fun o => try_except (k o) handler)
  | GetDocuments c q l k => GetDocuments c q l (fun o => try_except (k o) handler)
  end.

(** The two operations imported from the persistence module. *)
Definition create_document (collection_name : str) (data : record) : prog str :=
  CreateDocument collection_name data
    (fun o => match o with Returned i => Ret i | Raised e => Raise e end).

Definition get_documents (collection_name : str) (filter_dict : dict) (limit : Z)
  : prog (list dict) :=
  GetDocuments collection_name filter_dict limit
    (fun o => match o with Returned l => Ret l | Raised e => Raise e end).

(** A persistence gateway over a store of type [S]: each call returns or
    raises, and leaves a new store. *)
Record gateway (S : Type) : Type := {
  gw_create : str -> record -> S -> outcome str * S;
  gw_get : str -> dict -> Z -> S -> outcome (list dict) * S
}.
Arguments gw_create {S} g.
Arguments gw_get {S} g.

Inductive event : Type :=
| EvCreate (collection_name : str) (data : record) (o : outcome str)
| EvGet (collection_name : str) (filter_dict : dict) (limit : Z)
    (o : outcome (list dict)).

Inductive result (A : Type) : Type :=
| Ok (a : A)
| Failed (e : exn).
Arguments Ok {A} a.
Arguments Failed {A} e.

(** What one request does: its result, the store it leaves, and the
    persistence calls it made, in order. *)
Fixpoint run {S A : Type} (g : gateway S) (p : prog A) (st : S)
  : result A * S * list event :=
  match p with
  | Ret a => (Ok a, st, [])
  | Raise e => (Failed e, st, [])
  | CreateDocument c d k =>
      let (o, st1) := gw_create g c d st in
      let '(r, st2, tr) := run g (k o) st1 in
      (r, st2, EvCreate c d o :: tr)
  | GetDocuments c q l k =>
      let (o, st1) := gw_get g c q l st in
      let '(r, st2, tr) := run g (k o) st1 in
      (r, st2, EvGet c q l o :: tr)
  end.

(** The status the web framework answers with. *)
Definition http_status {A : Type} (r : result A) : Z :=
  match r with
  | Ok _ => 200
  | Failed (HTTPException code _) => code
  | Failed _ => 500
  end.

(** ** Python built-ins used by the handlers *)

(** [len(v)] *)
Definition py_len (v : value) : prog Z :=
  match v with
  | VStr s => Ret (Z.of_nat (length s))
  | VList l => Ret (Z.of_nat (length l))
  | VDict d => Ret (Z.of_nat (length d))
  | _ => Raise TypeError
  end.

(** [a / b] on two ints *)
Definition int_truediv (a b : Z) : prog B64.float :=
  if (b =? 0)%Z then Raise ZeroDivisionError
  else Ret (B64.rnd (inject_Z a / inject_Z b)).

(** [x / n] on a float and an int *)
Definition float_truediv (x : B64.float) (n : Z) : prog B64.float :=
  if (n =? 0)%Z then Raise ZeroDivisionError
  else Ret (B64.div x (B64.of_int n)).

Definition int_of_bool (b : bool) : Z := if b then 1 else 0.

(** [sum(...)] over ints *)
Definition py_sum (l : list Z) : Z := fold_left Z.add l 0%Z.

(** Constructors of the record shapes, with the field constraints that
    [schemas.py] declares. *)
Definition TrainingSession_new (t : TrainingSession) : prog TrainingSession :=
  if existsb (Str.eqb (ts_status t)) [u "started"; u "submitted"]
  then Ret t else Raise ValidationError.

Definition AnalysisReport_new (r : AnalysisReport) : prog AnalysisReport :=
  if existsb (Str.eqb (ar_sentiment r)) [u "positive"; u "neutral"; u "negative"]
     && B64.geb (ar_risk_score r) 0 && B64.leb (ar_risk_score r) 1
  then Ret r else Raise ValidationError.

(** ** Request and response shapes ([main.py]) *)

Record AnalysisInput : Type := {
  ai_text : str;
  ai_user_id : option str
}.

Record AnalysisResult : Type := {
  an_sentiment : str;
  an_risk_score : B64.float;
  an_key_themes : list str;
  an_recommendations : list str;
  an_id : option str
}.

Record StartSessionInput : Type := {
  si_user_id : str
}.

Record StartSessionResult : Type := {
  so_session_id : option str;
  so_questions : list dict
}.

Record SubmitSessionInput : Type := {
  sb_session_id : option str;
  sb_user_id : str;
  sb_answers : list dict
}.

Record SubmitSessionResult : Type := {
  sr_score : B64.float;
  sr_feedback : str;
  sr_id : option str
}.

Record ChecklistCreate : Type := {
  cc_user_id : str;
  cc_title : str
}.

Record ChecklistResult : Type := {
  cr_id : option str;
  cr_title : str;
  cr_completed : bool
}.

(** ** The text analyzer: [analyze_text] *)

Definition negative_keywords : list str :=
  [u "angst"; u "sorge"; u "problem"; u "rückfall"; u "unsicher"; u "stress";
   u "alkohol"; u "drogen"].

Definition positive_keywords : list str :=
  [u "vorbereitet"; u "bereit"; u "besser"; u "verändert"; u "therapie";
   u "kontrolle"; u "motivation"].

(** [sum(k in lowered for k in keywords)] *)
Definition hits (keywords : list str) (lowered : str) : Z :=
  py_sum (map (fun k => int_of_bool (Str.contains k lowered)) keywords).

Definition sentiment_of (neg_hits pos_hits : Z) : str :=
  if (pos_hits >? neg_hits)%Z && (pos_hits >? 0)%Z then u "positive"
  else if (neg_hits >? pos_hits)%Z && (neg_hits >? 0)%Z then u "negative"
  else u "neutral".

Definition risk_score_of (neg_hits pos_hits : Z) : B64.float :=
  B64.min (B64.lit 1.0)
    (B64.max (B64.lit 0.0)
       (B64.lit 0.2 + B64.lit 0.15 * B64.of_int neg_hits
        - B64.lit 0.1 * B64.of_int pos_hits)%b64).

Definition key_themes_of (lowered : str) : list str :=
  firstn 6
    (filter (fun k => Str.contains k lowered) (negative_keywords ++ positive_keywords)).

Definition rec_counselling : str :=
  u "Empfohlen: zusätzliche Beratungsgespräche und Selbstreflexion zu Risikosituationen".
Definition rec_abstinence : str :=
  u "Dokumentiere Abstinenznachweise und Teilnahme an Programmen".
Definition rec_examples : str :=
  u "Erarbeite klare Beispiele für Verhaltensänderungen".
Definition rec_therapy : str :=
  u "Heb hervor, welche konkreten Fortschritte du in der Therapie gemacht hast".
Definition rec_default : str :=
  u "Weiter so: strukturiert deine Argumentation mit Ich-Botschaften und konkreten Beispielen".

Definition is_empty {A : Type} (l : list A) : bool :=
  match l with [] => true | _ :: _ => false end.

Definition recs_of (lowered : str) (risk_score : B64.float) (pos_hits : Z) : list str :=
  let recs := [] in
  let recs := if (risk_score >=? B64.lit 0.6)%b64 then recs ++ [rec_counselling] else recs in
  let recs := if Str.contains (u "alkohol") lowered || Str.contains (u "drogen") lowered
              then recs ++ [rec_abstinence] else recs in
  let recs := if (pos_hits =? 0)%Z then recs ++ [rec_examples] else recs in
  let recs := if Str.contains (u "therapie") lowered then recs ++ [rec_therapy] else recs in
  if is_empty recs then recs ++ [rec_default] else recs.

Section Analyzer.

(** [str.lower]: the case mapping of the interpreter's Unicode tables. *)
Variable lower : str -> str.

Definition analyze_text (payload : AnalysisInput) : prog AnalysisResult :=
  let text := Str.strip (ai_text payload) in
  if is_empty text then Raise (HTTPException 400 (u "Text cannot be empty")) else
  let lowered := lower text in
  let neg_hits := hits negative_keywords lowered in
  let pos_hits := hits positive_keywords lowered in
  let sentiment := sentiment_of neg_hits pos_hits in
  let risk_score := risk_score_of neg_hits pos_hits in
  let key_themes := key_themes_of lowered in
  let recs := recs_of lowered risk_score pos_hits in
  report <- AnalysisReport_new
              {| ar_user_id := ai_user_id payload;
                 ar_input_text := text;
                 ar_sentiment := sentiment;
                 ar_risk_score := risk_score;
                 ar_key_themes := key_themes;
                 ar_recommendations := recs |} ;;
  doc_id <- try_except
              (i <- create_document (u "analysisreport") (RAnalysisReport report) ;;
               Ret (Some i))
              (fun _ => Ret None) ;;
  Ret {| an_sentiment := sentiment;
         an_risk_score := risk_score;
         an_key_themes := key_themes;
         an_recommendations := recs;
         an_id := doc_id |}.

End Analyzer.

(** ** The training session: [start_session], [submit_session] *)

Definition session_questions : list dict :=
  [ [(u "id", VInt 1); (u "q", VStr (u "Was war der Auslöser deiner Verkehrsauffälligkeit?"))];
    [(u "id", VInt 2); (u "q", VStr (u "Welche Verhaltensänderungen hast du seitdem umgesetzt?"))];
    [(u "id", VInt 3); (u "q", VStr (u "Wie gehst du heute mit Risikosituationen um?"))] ].

Definition start_session (payload : StartSessionInput) : prog StartSessionResult :=
  let questions := session_questions in
  session <- TrainingSession_new
               {| ts_user_id := si_user_id payload;
                  ts_status := u "started";
                  ts_questions := questions;
                  ts_answers := None;
                  ts_score := None;
                  ts_feedback := None |} ;;
  session_id <- try_except
                  (i <- create_document (u "trainingsession") (RTrainingSession session) ;;
                   Ret (Some i))
                  (fun _ => Ret None) ;;
  Ret {| so_session_id := session_id; so_questions := questions |}.

(** [sum(1 for a in answers if a.get("text")) / max(1, len(answers))] *)
Definition completeness_of (answers : list dict) : prog B64.float :=
  int_truediv
    (py_sum (map (fun _ => 1%Z)
               (filter (fun a => truthy (dict_get a (u "text") VNone)) answers)))
    (Z.max 1 (Z.of_nat (length answers))).

(** The accumulation of
    [sum(min(1.0, len(a.get("text", "")) / 120) for a in answers)],
    one answer at a time, left to right. *)
Fixpoint depth_sum (answers : list dict) (acc : B64.float) : prog B64.float :=
  match answers with
  | [] => Ret acc
  | a :: rest =>
      n <- py_len (dict_get a (u "text") (VStr [])) ;;
      q <- int_truediv n 120 ;;
      depth_sum rest (acc + B64.min (B64.lit 1.0) q)%b64
  end.

Definition depth_of (answers : list dict) : prog B64.float :=
  total <- depth_sum answers (B64.of_int 0) ;;
  float_truediv total (Z.max 1 (Z.of_nat (length answers))).

Definition score_of (completeness depth : B64.float) : B64.float :=
  B64.round1
    (B64.of_int 100 * (B64.lit 0.4 * completeness + B64.lit 0.6 * depth))%b64.

Definition fb_complete : str := u "Beantworte alle Fragen vollständig.".
Definition fb_deeper : str := u "Geh tiefer auf Einsichten, Auslöser und Strategien ein.".
Definition fb_good : str := u "Sehr gut strukturiert – weiter so!".

Definition feedback_of (completeness depth : B64.float) : str :=
  let feedback_parts := [] in
  let feedback_parts :=
    if (completeness <? B64.lit 0.8)%b64 then feedback_parts ++ [fb_complete]
    else feedback_parts in
  let feedback_parts :=
    if (depth <? B64.lit 0.6)%b64 then feedback_parts ++ [fb_deeper]
    else feedback_parts in
  let feedback_parts :=
    if is_empty feedback_parts then feedback_parts ++ [fb_good]
    else feedback_parts in
  Str.join (u " ") feedback_parts.

Definition submit_session (payload : SubmitSessionInput) : prog SubmitSessionResult :=
  let answers := sb_answers payload in
  completeness <- completeness_of answers ;;
  depth <- depth_of answers ;;
  let score := score_of completeness depth in
  let feedback := feedback_of completeness depth in
  result <- TrainingSession_new
              {| ts_user_id := sb_user_id payload;
                 ts_status := u "submitted";
                 ts_questions := [];
                 ts_answers := Some answers;
                 ts_score := Some score;
                 ts_feedback := Some feedback |} ;;
  res_id <- try_except
              (i <- create_document (u "trainingsession") (RTrainingSession result) ;;
               Ret (Some i))
              (fun _ => Ret None) ;;
  Ret {| sr_score := score; sr_feedback := feedback; sr_id := res_id |}.

(** ** The checklist: [get_checklist], [add_checklist_item] *)

Definition demo_checklist : list dict :=
  [ [(u "id", VStr (u "1")); (u "title", VStr (u "Führungszeugnis prüfen"));
     (u "completed", VBool false)];
    [(u "id", VStr (u "2")); (u "title", VStr (u "Abstinenznachweise sammeln"));
     (u "completed", VBool false)];
    [(u "id", VStr (u "3")); (u "title", VStr (u "Probeinterview durchführen"));
     (u "completed", VBool false)] ].

Section Checklist.

(** [str(_id)] on a stored identifier. *)
Variable py_str : value -> str.

(** The body of the loop that turns the storage identifier into [id]. *)
Definition public_id (it : dict) : dict :=
  match dict_get it (u "_id") VNone with
  | VNone => it
  | _id => dict_del (dict_set it (u "id") (VStr (py_str _id))) (u "_id")
  end.

Definition get_checklist (user_id : str) : prog (list dict) :=
  try_except
    (items <- get_documents (u "checklistitem") [(u "user_id", VStr user_id)] 100 ;;
     Ret (map public_id items))
    (fun _ => Ret demo_checklist).

End Checklist.

Definition add_checklist_item (payload : ChecklistCreate) : prog ChecklistResult :=
  let item := {| ci_user_id := cc_user_id payload;
                 ci_title := cc_title payload;
                 ci_completed := false |} in
  item_id <- try_except
               (i <- create_document (u "checklistitem") (RChecklistItem item) ;;
                Ret (Some i))
               (fun _ => Ret None) ;;
  Ret {| cr_id := item_id; cr_title := ci_title item; cr_completed := ci_completed item |}.

(** ** Two gateways used as test doubles *)

(** A gateway whose calls have scripted outcomes; its store counts the
    calls received. *)
Definition scripted (on_create : outcome str) (on_get : outcome (list dict))
  : gateway nat :=
  {| gw_create := fun _ _ n => (on_create, S n);
     gw_get := fun _ _ _ n => (on_get, S n) |}.

Definition unavailable : gateway nat :=
  scripted (Raised (GatewayError (u "Database not available")))
           (Raised (GatewayError (u "Database not available"))).

(** ** Notions used to state the properties *)

(** Number of keywords present in the text, each counted once. *)
Definition present_count (keywords : list str) (lowered : str) : Z :=
  Z.of_nat (length (filter (fun k => Str.contains k lowered) keywords)).

(** The first [n] keywords of the list, in the order of the list, that
    occur in the text. *)
Fixpoint first_matches (n : nat) (keywords : list str) (lowered : str) : list str :=
  match keywords with
  | [] => []
  | k :: rest =>
      match n with
      | O => []
      | S n' =>
          if Str.contains k lowered then k :: first_matches n' rest lowered
          else first_matches n rest lowered
      end
  end.

(** The clamp of the risk formula over the rationals, without rounding. *)
Definition exact_risk (neg_hits pos_hits : Z) : Q :=
  Qmin 1 (Qmax 0 ((2 # 10) + (15 # 100) * inject_Z neg_hits
                  - (1 # 10) * inject_Z pos_hits)).

Definition id_of (o : outcome str) : option str :=
  match o with Returned i => Some i | Raised _ => None end.

(** The answer of the analyzer for a text that is not blank, and the
    report handed to the gateway. *)
Definition analysis (lower : str -> str) (payload : AnalysisInput)
  (doc_id : option str) : AnalysisResult :=
  let lowered := lower (Str.strip (ai_text payload)) in
  let neg_hits := hits negative_keywords lowered in
  let pos_hits := hits positive_keywords lowered in
  {| an_sentiment := sentiment_of neg_hits pos_hits;
     an_risk_score := risk_score_of neg_hits pos_hits;
     an_key_themes := key_themes_of lowered;
     an_recommendations := recs_of lowered (risk_score_of neg_hits pos_hits) pos_hits;
     an_id := doc_id |}.

Definition analysis_report (lower : str -> str) (payload : AnalysisInput)
  : AnalysisReport :=
  let text := Str.strip (ai_text payload) in
  let lowered := lower text in
  let neg_hits := hits negative_keywords lowered in
  let pos_hits := hits positive_keywords lowered in
  {| ar_user_id := ai_user_id payload;
     ar_input_text := text;
     ar_sentiment := sentiment_of neg_hits pos_hits;
     ar_risk_score := risk_score_of neg_hits pos_hits;
     ar_key_themes := key_themes_of lowered;
     ar_recommendations := recs_of lowered (risk_score_of neg_hits pos_hits) pos_hits |}.

(** Values on which [len] is defined. *)
Definition sized (v : value) : bool :=
  match v with
  | VStr _ | VList _ | VDict _ => true
  | _ => false
  end.

(** Every answer either has no ["text"] entry or one that has a length. *)
Definition texts_sized (answers : list dict) : Prop :=
  Forall (fun a => sized (dict_get a (u "text") (VStr [])) = true) answers.

(** The inputs of the scenarios. *)
Definition scenario_alcohol : AnalysisInput :=
  {| ai_text := u "Ich habe große Angst und Sorge wegen meines Alkohol-Problems";
     ai_user_id := None |}.

Definition scenario_short_answers : list dict :=
  [ [(u "text", VStr (u "kurz"))]; [] ].

Definition scenario_null_text : SubmitSessionInput :=
  {| sb_session_id := None;
     sb_user_id := u "u1";
     sb_answers := [ [(u "text", VNone)] ] |}.

Definition scenario_six_negatives : AnalysisInput :=
  {| ai_text := u "angst sorge problem unsicher stress alkohol vorbereitet";
     ai_user_id := None |}.

Definition scenario_order : AnalysisInput :=
  {| ai_text := u "bereit trotz angst"; ai_user_id := None |}.

Definition scenario_prepared : AnalysisInput :=
  {| ai_text := u "Ich bin gut vorbereitet"; ai_user_id := None |}.

(** ** The health check: [test_database] *)

(** The handle [db] of the persistence module, when it is initialised:
    its [name] attribute and what [list_collection_names()] does. *)
Record Database : Type := {
  db_name : option str;
  db_list_collection_names : outcome (list str)
}.

Record TestResponse : Type := {
  tr_backend : str;
  tr_database : str;
  tr_database_url : option str;
  tr_database_name : option str;
  tr_connection_status : str;
  tr_collections : list str
}.

Section TestDatabase.

(** [os.getenv] and [str(e)] on an exception. *)
Variable getenv : str -> option str.
Variable exc_str : exn -> str.

(** Truth value of [os.getenv(name)]. *)
Definition env_truthy (name : str) : bool :=
  match getenv name with
  | Some (_ :: _) => true
  | _ => false
  end.

Definition test_database (db : option Database) : TestResponse :=
  match db with
  | Some d =>
      let database_url :=
        if env_truthy (u "DATABASE_URL") then u "✅ Set" else u "❌ Not Set" in
      let database_name :=
        match db_name d with
        | Some (c :: n) => c :: n
        | _ => if env_truthy (u "DATABASE_NAME") then u "✅ Set" else u "❌ Not Set"
        end in
      match db_list_collection_names d with
      | Returned collections =>
          {| tr_backend := u "✅ Running";
             tr_database := u "✅ Connected & Working";
             tr_database_url := Some database_url;
             tr_database_name := Some database_name;
             tr_connection_status := u "Connected";
             tr_collections := firstn 10 collections |}
      | Raised e =>
          {| tr_backend := u "✅ Running";
             tr_database := u "⚠️ Connected but Error: " ++ firstn 80 (exc_str e);
             tr_database_url := Some database_url;
             tr_database_name := Some database_name;
             tr_connection_status := u "Connected";
             tr_collections := [] |}
      end
  | None =>
      {| tr_backend := u "✅ Running";
         tr_database := u "⚠️ Available but not initialized";
         tr_database_url := None;
         tr_database_name := None;
         tr_connection_status := u "Not Connected";
         tr_collections := [] |}
  end.

End TestDatabase.

(** ** Further notions used to state the properties *)

(** The constraints [schemas.py] puts on the fields of a record. *)
Definition record_valid (r : record) : bool :=
  match r with
  | RTrainingSession t =>
      existsb (Str.eqb (ts_status t)) [u "started"; u "submitted"]
  | RChecklistItem _ => true
  | RAnalysisReport a =>
      existsb (Str.eqb (ar_sentiment a)) [u "positive"; u "neutral"; u "negative"]
      && B64.geb (ar_risk_score a) 0 && B64.leb (ar_risk_score a) 1
  end.

Definition class_name (r : record) : str :=
  match r with
  | RTrainingSession _ => u "TrainingSession"
  | RChecklistItem _ => u "ChecklistItem"
  | RAnalysisReport _ => u "AnalysisReport"
  end.

(** "Collection name = lowercase of class name" *)
Definition collection_of (r : record) : str := Str.lower_latin1 (class_name r).

(** A create call that stores a valid record in the collection named
    after its class. *)
Definition well_formed_call (e : event) : Prop :=
  match e with
  | EvCreate c d _ => c = collection_of d /\ record_valid d = true
  | EvGet _ _ _ _ => True
  end.

(** Number of answers that count as answered. *)
Definition answered (answers : list dict) : Z :=
  Z.of_nat (length (filter (fun a => truthy (dict_get a (u "text") VNone)) answers)).

(** The length of the text of an answer, when it is a string; a missing
    text counts as the empty string. *)
Definition text_len (a : dict) : option nat :=
  match dict_lookup a (u "text") with
  | None => Some 0%nat
  | Some (VStr s) => Some (length s)
  | Some _ => None
  end.

(** What an answer whose text has [n] characters adds to the depth sum. *)
Definition depth_term (n : nat) : B64.float :=
  B64.min (B64.lit 1.0) (B64.rnd (inject_Z (Z.of_nat n) / inject_Z 120)).

(** Two lists of answers with string texts, the second with texts at
    least as long, answer by answer. *)
Definition texts_extended (answers answers' : list dict) : Prop :=
  Forall2 (fun a a' => exists n n', text_len a = Some n /\ text_len a' = Some n'
                                    /\ (n <= n')%nat) answers answers'.

(** Every answer has a text of at least 120 characters. *)
Definition texts_long (answers : list dict) : Prop :=
  Forall (fun a => exists s, dict_lookup a (u "text") = Some (VStr s)
                             /\ (120 <= length s)%nat) answers.

(** No answer has a text, or only the empty one. *)
Definition texts_blank (answers : list dict) : Prop :=
  Forall (fun a => dict_lookup a (u "text") = None
                   \/ dict_lookup a (u "text") = Some (VStr [])) answers.

Definition scenario_six_five : AnalysisInput :=
  {| ai_text :=
       u "Angst, Sorge, Problem, unsicher, Stress und Alkohol; vorbereitet, besser, Therapie, Kontrolle";
     ai_user_id := None |}.

Definition scenario_calm : AnalysisInput :=
  {| ai_text := u "Ich bin bereit"; ai_user_id := None |}.

Definition long_text : str := repeat 120%N 120.

Definition scenario_stored_items : list dict :=
  [ [(u "_id", VObjectId (u "65a1")); (u "user_id", VStr (u "u1"));
     (u "title", VStr (u "Termin")); (u "completed", VBool false)];
    [(u "title", VStr (u "ohne")); (u "_id", VNone)] ].

(** [str] on the values used as storage identifiers. *)
Definition str_of_id (v : value) : str :=
  match v with
  | VObjectId oid => oid
  | VStr s => s
  | _ => []
  end.

(** ** The same arithmetic over the kernel's binary64 floats *)

Module IEEE.

Local Open Scope float_scope.

Definition of_Z (z : Z) : PrimFloat.float := PrimFloat.of_uint63 (Uint63.of_Z z).

#[warnings="-inexact-float"]
Definition risk_score (neg_hits pos_hits : Z) : PrimFloat.float :=
  let x := 0.2 + 0.15 * of_Z neg_hits - 0.1 * of_Z pos_hits in
  let y := if 0.0 <? x then x else 0.0 in
  if y <? 1.0 then y else 1.0.

(** The argument of [round] in the scorer, from the number of answers
    with a text, the number of answers and the lengths of the texts. *)
#[warnings="-inexact-float"]
Definition raw_score (answered total : Z) (lengths : list Z) : PrimFloat.float :=
  let completeness := of_Z answered / of_Z total in
  let depth :=
    fold_left (fun acc n => let q := of_Z n / 120 in
                            acc + (if q <? 1.0 then q else 1.0)) lengths 0
    / of_Z total in
  100 * (0.4 * completeness + 0.6 * depth).

End IEEE.

(* ================================================================== *)
(** * Part II: properties *)
(* ================================================================== *)

(** ** Rounding to binary64 *)

Module B64Facts.

Import B64.
Local Open Scope Q_scope.

Lemma pow2_pos z : 0 < pow2 z.
Proof. apply Qpower_0_lt. reflexivity. Qed.

Lemma pow2_add a b : pow2 (a + b) == pow2 a * pow2 b.
Proof. apply Qpower_plus. discriminate. Qed.

Lemma pow2_le a b : (a <= b)%Z -> pow2 a <= pow2 b.
Proof. intros H. apply Qpower_le_compat_l; [exact H | discriminate]. Qed.

Lemma pow2_Z n : (0 <= n)%Z -> inject_Z (2 ^ n) == pow2 n.
Proof. intros H. unfold pow2. now rewrite Zpower_Qpower. Qed.

#[global] Instance rne_comp : Proper (Qeq ==> eq) rne.
Proof.
  intros x y E. unfold rne.
  rewrite (Qfloor_comp _ _ E).
  assert (E' : x - inject_Z (Qfloor y) == y - inject_Z (Qfloor y))
    by (rewrite E; reflexivity).
  now rewrite (Qcompare_comp _ _ E' _ _ (Qeq_refl (1 # 2))).
Qed.

Lemma rne_Z z : rne (inject_Z z) = z.
Proof.
  unfold rne. rewrite Qfloor_Z.
  destruct (Qcompare_spec (inject_Z z - inject_Z z) (1 # 2)) as [H|H|H];
    try reflexivity; exfalso; lra.
Qed.

Lemma rne_bounds x : (Qfloor x <= rne x <= Qfloor x + 1)%Z.
Proof.
  unfold rne. destruct (Qcompare _ _); try destruct (Z.even _); lia.
Qed.

Lemma rne_mono x y : x <= y -> (rne x <= rne y)%Z.
Proof.
  intros H. pose proof (Qfloor_resp_le _ _ H) as Hf.
  destruct (Z.eq_dec (Qfloor x) (Qfloor y)) as [E|N].
  - unfold rne. rewrite E.
    destruct (Qcompare_spec (x - inject_Z (Qfloor y)) (1 # 2));
    destruct (Qcompare_spec (y - inject_Z (Qfloor y)) (1 # 2));
    try destruct (Z.even (Qfloor y)); try lia; exfalso; lra.
  - pose proof (rne_bounds x). pose proof (rne_bounds y). lia.
Qed.

Lemma ilog2_spec q : 0 < q -> pow2 (ilog2 q) <= q < pow2 (ilog2 q + 1).
Proof.
  intros Hq. destruct q as [a b]. unfold ilog2. cbn [Qnum Qden].
  assert (Ha : (0 < a)%Z) by (unfold Qlt in Hq; simpl in Hq; lia).
  set (la := Z.log2 a). set (lb := Z.log2 (Zpos b)).
  destruct (Z.log2_spec a Ha) as [Ha1 Ha2]. fold la in Ha1, Ha2.
  destruct (Z.log2_spec (Zpos b) (Pos2Z.is_pos b)) as [Hb1 Hb2]. fold lb in Hb1, Hb2.
  assert (Hla : (0 <= la)%Z) by apply Z.log2_nonneg.
  assert (Hlb : (0 <= lb)%Z) by apply Z.log2_nonneg.
  assert (QA1 : pow2 la <= inject_Z a)
    by (rewrite <- pow2_Z by lia; now rewrite <- Zle_Qle).
  assert (QA2 : inject_Z a < pow2 (la + 1))
    by (rewrite <- pow2_Z by lia; rewrite <- Zlt_Qlt; lia).
  assert (QB1 : pow2 lb <= inject_Z (Zpos b))
    by (rewrite <- pow2_Z by lia; now rewrite <- Zle_Qle).
  assert (QB2 : inject_Z (Zpos b) < pow2 (lb + 1))
    by (rewrite <- pow2_Z by lia; rewrite <- Zlt_Qlt; lia).
  assert (Eq : (a # b) * inject_Z (Zpos b) == inject_Z a).
  { rewrite (Qmake_Qdiv a b). field. intro E. unfold Qeq in E; simpl in E; lia. }
  set (q := a # b) in *.
  pose proof (pow2_pos lb) as Plb. pose proof (pow2_pos (la - lb)) as Pl.
  pose proof (pow2_pos (la - lb - 1)) as Pl1.
  pose proof (pow2_pos (la - lb + 1)) as Pl2.
  assert (E1 : pow2 (la + 1) == pow2 (la - lb + 1) * pow2 lb).
  { rewrite <- pow2_add. replace (la - lb + 1 + lb)%Z with (la + 1)%Z by lia.
    reflexivity. }
  assert (E2 : pow2 la == pow2 (la - lb - 1) * pow2 (lb + 1)).
  { rewrite <- pow2_add. replace (la - lb - 1 + (lb + 1))%Z with la by lia.
    reflexivity. }
  assert (U : q < pow2 (la - lb + 1)).
  { destruct (Qlt_le_dec q (pow2 (la - lb + 1))) as [L|G]; [exact L|exfalso].
    assert (pow2 (la - lb + 1) * pow2 lb <= q * inject_Z (Zpos b))
      by (apply Qmult_le_compat_nonneg; split; lra).
    lra. }
  assert (L : pow2 (la - lb - 1) < q).
  { destruct (Qlt_le_dec (pow2 (la - lb - 1)) q) as [L|G]; [exact L|exfalso].
    assert (q * inject_Z (Zpos b) < pow2 (la - lb - 1) * pow2 (lb + 1))
      by (apply Qmult_le_lt_compat_pos; split; lra).
    lra. }
  destruct (Qle_bool (pow2 (la - lb)) q) eqn:B.
  - apply Qle_bool_iff in B. split; [exact B | exact U].
  - assert (q < pow2 (la - lb)).
    { destruct (Qlt_le_dec q (pow2 (la - lb))) as [L'|G]; [exact L'|].
      apply Qle_bool_iff in G. congruence. }
    replace (la - lb - 1 + 1)%Z with (la - lb)%Z by lia. split; lra.
Qed.

Lemma ilog2_mono p q : 0 < p -> p <= q -> (ilog2 p <= ilog2 q)%Z.
Proof.
  intros Hp Hpq.
  destruct (ilog2_spec p Hp) as [P1 _].
  destruct (ilog2_spec q) as [_ Q2]; [lra|].
  destruct (Z_le_gt_dec (ilog2 p) (ilog2 q)) as [L|G]; [exact L|exfalso].
  assert (pow2 (ilog2 q + 1) <= pow2 (ilog2 p)) by (apply pow2_le; lia).
  lra.
Qed.

Lemma ilog2_unique q e : pow2 e <= q < pow2 (e + 1) -> ilog2 q = e.
Proof.
  intros [H1 H2]. pose proof (pow2_pos e) as Pe.
  destruct (ilog2_spec q) as [S1 S2]; [lra|].
  destruct (Z.lt_trichotomy (ilog2 q) e) as [L|[E|G]]; [exfalso|exact E|exfalso].
  - assert (pow2 (ilog2 q + 1) <= pow2 e) by (apply pow2_le; lia). lra.
  - assert (pow2 (e + 1) <= pow2 (ilog2 q)) by (apply pow2_le; lia). lra.
Qed.

Lemma scaled_upper q : 0 < q -> q / pow2 (ulp_exp q) <= inject_Z (2 ^ 53).
Proof.
  intros Hq. destruct (ilog2_spec q Hq) as [_ S2].
  pose proof (pow2_pos (ulp_exp q)) as Pe.
  apply Qle_shift_div_r; [exact Pe|].
  rewrite pow2_Z by lia. rewrite <- pow2_add.
  assert (pow2 (ilog2 q + 1) <= pow2 (53 + ulp_exp q))
    by (apply pow2_le; unfold ulp_exp, prec; lia).
  lra.
Qed.

Lemma scaled_lower q :
  0 < q -> ulp_exp q = (ilog2 q - (prec - 1))%Z ->
  inject_Z (2 ^ 52) <= q / pow2 (ulp_exp q).
Proof.
  intros Hq E. destruct (ilog2_spec q Hq) as [S1 _].
  pose proof (pow2_pos (ulp_exp q)) as Pe.
  apply Qle_shift_div_l; [exact Pe|].
  rewrite pow2_Z by lia. rewrite <- pow2_add.
  replace (52 + ulp_exp q)%Z with (ilog2 q) by (rewrite E; unfold prec; lia).
  exact S1.
Qed.

Lemma rnd_pos_upper q : 0 < q -> rnd_pos q <= pow2 (53 + ulp_exp q).
Proof.
  intros Hq. unfold rnd_pos. rewrite pow2_add.
  pose proof (pow2_pos (ulp_exp q)) as Pe.
  apply Qmult_le_compat_r; [|lra].
  rewrite <- (pow2_Z 53) by lia. rewrite <- Zle_Qle.
  rewrite <- (rne_Z (2 ^ 53)) at 1. apply rne_mono. now apply scaled_upper.
Qed.

Lemma rnd_pos_lower q :
  0 < q -> ulp_exp q = (ilog2 q - (prec - 1))%Z ->
  pow2 (52 + ulp_exp q) <= rnd_pos q.
Proof.
  intros Hq E. unfold rnd_pos. rewrite pow2_add.
  pose proof (pow2_pos (ulp_exp q)) as Pe.
  apply Qmult_le_compat_r; [|lra].
  rewrite <- (pow2_Z 52) by lia. rewrite <- Zle_Qle.
  rewrite <- (rne_Z (2 ^ 52)) at 1. apply rne_mono. now apply scaled_lower.
Qed.

Lemma rnd_pos_nonneg q : 0 < q -> 0 <= rnd_pos q.
Proof.
  intros Hq. unfold rnd_pos.
  pose proof (pow2_pos (ulp_exp q)) as Pe.
  apply Qmult_le_0_compat; [|lra].
  assert (H : 0 <= q / pow2 (ulp_exp q)).
  { apply Qle_shift_div_l; [exact Pe|]. rewrite Qmult_0_l. lra. }
  apply rne_mono in H. change (rne 0) with (rne (inject_Z 0)) in H.
  rewrite rne_Z in H.
  change 0 with (inject_Z 0). now rewrite <- Zle_Qle.
Qed.

Lemma rnd_pos_mono p q : 0 < p -> p <= q -> rnd_pos p <= rnd_pos q.
Proof.
  intros Hp Hpq. assert (Hq : 0 < q) by lra.
  pose proof (ilog2_mono p q Hp Hpq) as Hl.
  assert (He : (ulp_exp p <= ulp_exp q)%Z) by (unfold ulp_exp; lia).
  destruct (Z.eq_dec (ulp_exp p) (ulp_exp q)) as [E|N].
  - unfold rnd_pos. rewrite E.
    pose proof (pow2_pos (ulp_exp q)) as Pe.
    apply Qmult_le_compat_r; [|lra].
    rewrite <- Zle_Qle. apply rne_mono.
    apply Qle_shift_div_l; [exact Pe|].
    setoid_replace (p / pow2 (ulp_exp q) * pow2 (ulp_exp q)) with p by (field; lra).
    exact Hpq.
  - assert (Eq : ulp_exp q = (ilog2 q - (prec - 1))%Z) by (unfold ulp_exp in *; lia).
    pose proof (rnd_pos_upper p Hp). pose proof (rnd_pos_lower q Hq Eq).
    assert (pow2 (53 + ulp_exp p) <= pow2 (52 + ulp_exp q)) by (apply pow2_le; lia).
    lra.
Qed.

Lemma rnd_zero q : q == 0 -> rnd q = 0.
Proof.
  destruct q as [a b]. unfold Qeq; simpl. intros E.
  assert (a = 0%Z) by lia. subst a. reflexivity.
Qed.

Lemma rnd_of_pos q : 0 < q -> rnd q == rnd_pos q.
Proof.
  destruct q as [[|a|a] b]; intros H; try (unfold Qlt in H; simpl in H; lia).
  change (rnd (Z.pos a # b)) with (Qred (rnd_pos (Z.pos a # b))).
  apply Qred_correct.
Qed.

Lemma rnd_of_neg q : q < 0 -> rnd q == - rnd_pos (- q).
Proof.
  destruct q as [[|a|a] b]; intros H; try (unfold Qlt in H; simpl in H; lia).
  change (rnd (Z.neg a # b)) with (Qred (- rnd_pos (- (Z.neg a # b)))).
  apply Qred_correct.
Qed.

Lemma rnd_nonneg q : 0 <= q -> 0 <= rnd q.
Proof.
  intros H. destruct (Qlt_le_dec 0 q) as [L|G].
  - rewrite (rnd_of_pos q L). now apply rnd_pos_nonneg.
  - rewrite (rnd_zero q); lra.
Qed.

(** Rounding never reorders two numbers. *)
Lemma rnd_mono p q : p <= q -> rnd p <= rnd q.
Proof.
  intros H.
  destruct (Qlt_le_dec 0 p) as [Pp|Np].
  - rewrite (rnd_of_pos p Pp), (rnd_of_pos q) by lra. now apply rnd_pos_mono.
  - destruct (Qlt_le_dec p 0) as [Lp|Zp].
    + rewrite (rnd_of_neg p Lp).
      assert (0 <= rnd_pos (- p)) by (apply rnd_pos_nonneg; lra).
      destruct (Qlt_le_dec q 0) as [Lq|Gq].
      * rewrite (rnd_of_neg q Lq).
        assert (rnd_pos (- q) <= rnd_pos (- p)) by (apply rnd_pos_mono; lra).
        lra.
      * pose proof (rnd_nonneg q Gq). lra.
    + rewrite (rnd_zero p) by lra. apply rnd_nonneg. lra.
Qed.

#[global] Instance rnd_comp : Proper (Qeq ==> Qeq) rnd.
Proof.
  intros x y E. apply Qle_antisym; apply rnd_mono; rewrite E; apply Qle_refl.
Qed.

(** Every [m * 2^e] with [0 < m < 2^53] and [emin <= e] is left unchanged. *)
Lemma rnd_representable m e :
  (0 < m < 2 ^ prec)%Z -> (emin <= e)%Z ->
  rnd (inject_Z m * pow2 e) == inject_Z m * pow2 e.
Proof.
  intros Hm He. set (q := inject_Z m * pow2 e).
  assert (Dq : q == inject_Z m * pow2 e) by reflexivity. clearbody q.
  pose proof (pow2_pos e) as Pe.
  assert (Qm : 0 < inject_Z m)
    by (change 0 with (inject_Z 0); rewrite <- Zlt_Qlt; lia).
  assert (Hq : 0 < q) by (rewrite Dq; apply Qmult_lt_0_compat; assumption).
  rewrite (rnd_of_pos q Hq). unfold rnd_pos.
  destruct (Z.log2_spec m) as [L1 L2]; [lia|].
  pose proof (Z.log2_nonneg m) as L0.
  assert (Hlog : (Z.log2 m < prec)%Z) by (apply Z.log2_lt_pow2; lia).
  assert (Hil : ilog2 q = (Z.log2 m + e)%Z).
  { apply ilog2_unique. rewrite Dq.
    replace (Z.log2 m + e + 1)%Z with (Z.log2 m + 1 + e)%Z by lia.
    rewrite (pow2_add (Z.log2 m) e), (pow2_add (Z.log2 m + 1) e).
    rewrite <- (pow2_Z (Z.log2 m)), <- (pow2_Z (Z.log2 m + 1)) by lia. split.
    - apply Qmult_le_compat_r; [|lra]. now rewrite <- Zle_Qle.
    - apply Qmult_lt_compat_r; [lra|]. rewrite <- Zlt_Qlt. lia. }
  assert (Hex : (ulp_exp q <= e)%Z)
    by (unfold ulp_exp; rewrite Hil; unfold prec in *; lia).
  set (w := ulp_exp q) in *. pose proof (pow2_pos w) as Pw.
  assert (Hd : pow2 e == pow2 (e - w) * pow2 w).
  { rewrite <- pow2_add. now replace (e - w + w)%Z with e by lia. }
  assert (Hs : q / pow2 w == inject_Z (m * 2 ^ (e - w))).
  { rewrite inject_Z_mult, pow2_Z by lia. rewrite Dq, Hd. field. lra. }
  rewrite Hs, rne_Z, <- Hs. field. lra.
Qed.

(** Integers up to [2^53] are left unchanged. *)
Lemma rnd_int k : (0 <= k <= 2 ^ prec)%Z -> rnd (inject_Z k) == inject_Z k.
Proof.
  intros Hk.
  destruct (Z.eq_dec k 0) as [->|N0]; [reflexivity|].
  destruct (Z.eq_dec k (2 ^ prec)) as [->|N1]; [vm_compute; reflexivity|].
  assert (E : inject_Z k == inject_Z k * pow2 0) by (unfold pow2; simpl; ring).
  rewrite E at 1.
  rewrite rnd_representable; [symmetry; exact E | lia | unfold emin; lia].
Qed.

End B64Facts.

(** ** Strings *)

Module StrFacts.

Lemma startswith_spec p s : Str.startswith p s = true <-> exists t, s = p ++ t.
Proof.
  revert s. induction p as [|a p IH]; intros s; simpl.
  - split; [intros _; now exists s | reflexivity].
  - destruct s as [|b s].
    + split; [discriminate | intros [t Ht]; discriminate].
    + rewrite andb_true_iff, N.eqb_eq, IH. split.
      * intros [-> [t ->]]. now exists t.
      * intros [t Ht]. injection Ht as -> ->. split; [reflexivity | now exists t].
Qed.

Lemma contains_spec p s : Str.contains p s = true <-> exists a b, s = a ++ p ++ b.
Proof.
  induction s as [|c s IH].
  - simpl. rewrite orb_false_r, startswith_spec. split.
    + intros [t Ht]. now exists [], t.
    + intros [a [b H]]. destruct a; [now exists b | discriminate].
  - cbn [Str.contains]. rewrite orb_true_iff, startswith_spec, IH. split.
    + intros [[t Ht] | [a [b H]]].
      * now exists [], t.
      * exists (c :: a), b. now rewrite H.
    + intros [a [b H]]. destruct a as [|c' a].
      * left. now exists b.
      * right. injection H as -> ->. now exists a, b.
Qed.

(** A text that contains a string contains each of its infixes. *)
Lemma contains_infix a p b s :
  Str.contains (a ++ p ++ b) s = true -> Str.contains p s = true.
Proof.
  rewrite !contains_spec. intros [x [y H]].
  exists (x ++ a), (b ++ y). rewrite H, <- !app_assoc. reflexivity.
Qed.

Lemma lstrip_nil_iff s : Str.lstrip s = [] <-> forallb Str.isspace s = true.
Proof.
  induction s as [|c s IH]; simpl.
  - tauto.
  - destruct (Str.isspace c); simpl; [exact IH | split; discriminate].
Qed.

Lemma lstrip_head s c t : Str.lstrip s = c :: t -> Str.isspace c = false.
Proof.
  induction s as [|d s IH]; simpl; [discriminate|].
  destruct (Str.isspace d) eqn:E; [exact IH|]. intros H. injection H as -> _. exact E.
Qed.

Lemma rev_nil_inv {A} (l : list A) : rev l = [] -> l = [].
Proof. intros H. rewrite <- (rev_involutive l), H. reflexivity. Qed.

(** Trimming leaves nothing exactly when every character is white space. *)
Lemma strip_nil_iff s : Str.strip s = [] <-> forallb Str.isspace s = true.
Proof.
  unfold Str.strip, Str.rstrip. split.
  - intros H. apply rev_nil_inv in H. apply lstrip_nil_iff in H.
    destruct (Str.lstrip s) as [|c t] eqn:E.
    + now apply lstrip_nil_iff.
    + apply lstrip_head in E. rewrite forallb_forall in H.
      rewrite (H c) in E; [discriminate|]. apply in_rev. rewrite rev_involutive. now left.
  - intros H. apply lstrip_nil_iff in H. rewrite H. reflexivity.
Qed.

End StrFacts.

Section AnalyzerFacts.

Import B64Facts.

Lemma py_sum_from l acc : fold_left Z.add l acc = (acc + py_sum l)%Z.
Proof.
  unfold py_sum. revert acc. induction l as [|x l IH]; intros acc; simpl.
  - lia.
  - rewrite IH, (IH x). lia.
Qed.

Lemma py_sum_cons x l : py_sum (x :: l) = (x + py_sum l)%Z.
Proof. unfold py_sum at 1. simpl. apply py_sum_from. Qed.

(** Summing the membership tests counts the keywords that are present. *)
Lemma hits_present_count keywords lowered :
  hits keywords lowered = present_count keywords lowered.
Proof.
  unfold hits, present_count. induction keywords as [|k ks IH].
  - reflexivity.
  - cbn [map filter]. rewrite py_sum_cons, IH.
    destruct (Str.contains k lowered); cbn [int_of_bool length]; lia.
Qed.

Lemma present_count_bounds keywords lowered :
  (0 <= present_count keywords lowered <= Z.of_nat (length keywords))%Z.
Proof.
  unfold present_count. pose proof (filter_length_le (fun k => Str.contains k lowered) keywords).
  lia.
Qed.

Lemma clamp_range (x : Q) : (0 <= B64.min 1 (B64.max 0 x) <= 1)%Q.
Proof.
  unfold B64.min, B64.max, B64.ltb, B64.gtb.
  destruct (Qle_bool x 0) eqn:E1; cbn [negb].
  - change (Qle_bool 1 0) with false. cbn. split; discriminate.
  - destruct (Qle_bool 1 x) eqn:E2; cbn [negb].
    + split; discriminate.
    + assert (~ x <= 0)%Q by (rewrite <- Qle_bool_iff, E1; discriminate).
      assert (~ 1 <= x)%Q by (rewrite <- Qle_bool_iff, E2; discriminate).
      split; lra.
Qed.

Lemma lit_one : B64.lit 1.0 = 1%Q.
Proof. vm_compute. reflexivity. Qed.

Lemma lit_zero : B64.lit 0.0 = 0%Q.
Proof. vm_compute. reflexivity. Qed.

Lemma risk_score_range n p : (0 <= risk_score_of n p <= 1)%Q.
Proof. unfold risk_score_of. rewrite lit_one, lit_zero. apply clamp_range. Qed.

Lemma sentiment_of_cases n p :
  sentiment_of n p = u "positive" \/ sentiment_of n p = u "neutral"
  \/ sentiment_of n p = u "negative".
Proof.
  unfold sentiment_of.
  destruct ((p >? n)%Z && (p >? 0)%Z); [now left|].
  destruct ((n >? p)%Z && (n >? 0)%Z); [now right; right | now right; left].
Qed.

Lemma report_is_valid uid text lowered n p :
  AnalysisReport_new
    {| ar_user_id := uid; ar_input_text := text;
       ar_sentiment := sentiment_of n p; ar_risk_score := risk_score_of n p;
       ar_key_themes := key_themes_of lowered;
       ar_recommendations := recs_of lowered (risk_score_of n p) p |}
  = Ret {| ar_user_id := uid; ar_input_text := text;
       ar_sentiment := sentiment_of n p; ar_risk_score := risk_score_of n p;
       ar_key_themes := key_themes_of lowered;
       ar_recommendations := recs_of lowered (risk_score_of n p) p |}.
Proof.
  unfold AnalysisReport_new. cbn [ar_sentiment ar_risk_score].
  destruct (risk_score_range n p) as [R0 R1].
  unfold B64.geb, B64.leb.
  apply Qle_bool_iff in R0, R1. rewrite R0, R1.
  destruct (sentiment_of_cases n p) as [-> | [-> | ->]]; reflexivity.
Qed.

Variable lower : str -> str.

Lemma analyze_text_shape payload :
  Str.strip (ai_text payload) <> [] ->
  exists k,
    analyze_text lower payload =
      CreateDocument (u "analysisreport")
        (RAnalysisReport (analysis_report lower payload)) k
    /\ forall o, k o = Ret (analysis lower payload (id_of o)).
Proof.
  intros H. unfold analyze_text.
  destruct (Str.strip (ai_text payload)) as [|c t] eqn:E; [contradiction|].
  cbn [is_empty]. rewrite report_is_valid.
  unfold analysis_report, analysis. rewrite E.
  cbn [bind try_except create_document].
  eexists. split; [reflexivity|].
  intros [i|e]; reflexivity.
Qed.

Lemma analyze_text_run (S : Type) (g : gateway S) (st : S) payload :
  Str.strip (ai_text payload) <> [] ->
  run g (analyze_text lower payload) st =
  let (o, st1) :=
    gw_create g (u "analysisreport")
      (RAnalysisReport (analysis_report lower payload)) st in
  (Ok (analysis lower payload (id_of o)), st1,
   [EvCreate (u "analysisreport")
      (RAnalysisReport (analysis_report lower payload)) o]).
Proof.
  intros H. destruct (analyze_text_shape payload H) as [k [-> Hk]].
  cbn [run]. destruct (gw_create g _ _ st) as [o st1].
  rewrite Hk. reflexivity.
Qed.

End AnalyzerFacts.

Lemma negative_keywords_length : length negative_keywords = 8%nat.
Proof. reflexivity. Qed.

Lemma positive_keywords_length : length positive_keywords = 7%nat.
Proof. reflexivity. Qed.

Ltac enumerate z lo hi :=
  let rec go k :=
    tryif (let b := eval vm_compute in (k <=? hi)%Z in
           lazymatch b with true => idtac | false => fail end)
    then (destruct (Z.eq_dec z k) as [->|?];
          [ | let k' := eval vm_compute in (k + 1)%Z in go k' ])
    else (exfalso; lia)
  in go lo.

Lemma risk_score_error n p :
  (0 <= n <= 8)%Z -> (0 <= p <= 7)%Z ->
  (Qabs (risk_score_of n p - exact_risk n p) <= 1 # 2 ^ 52)%Q.
Proof.
  intros Hn Hp.
  enumerate n 0%Z 8%Z; enumerate p 0%Z 7%Z; vm_compute; discriminate.
Qed.

(** C1.  For a text that is not blank the analyzer answers, and its
    risk score is the binary64 evaluation of
    [min(1, max(0, 0.2 + 0.15 * neg_hits - 0.1 * pos_hits))], where each
    keyword of the two fixed lists counts once when it occurs in the
    lower-cased text; the score is within [2^-52] of the exact value of
    that formula and lies in [[0, 1]]. *)
Theorem analyze_risk_score_formula :
  forall (lower : str -> str) (S : Type) (g : gateway S) (st : S)
         (payload : AnalysisInput),
    Str.strip (ai_text payload) <> [] ->
    exists resp st' tr,
      run g (analyze_text lower payload) st = (Ok resp, st', tr) /\
      let lowered := lower (Str.strip (ai_text payload)) in
      let neg_hits := present_count negative_keywords lowered in
      let pos_hits := present_count positive_keywords lowered in
      an_risk_score resp =
        B64.min (B64.lit 1.0)
          (B64.max (B64.lit 0.0)
             (B64.lit 0.2 + B64.lit 0.15 * B64.of_int neg_hits
              - B64.lit 0.1 * B64.of_int pos_hits)%b64)
      /\ (Qabs (an_risk_score resp - exact_risk neg_hits pos_hits) <= 1 # 2 ^ 52)%Q
      /\ (0 <= an_risk_score resp <= 1)%Q.
Proof.
  intros lower S g st payload H.
  pose proof (analyze_text_run lower S g st payload H) as R.
  destruct (gw_create g _ _ st) as [o st1].
  eexists _, _, _. split; [exact R|].
  cbn zeta. unfold analysis. cbn [an_risk_score].
  rewrite !hits_present_count.
  set (lowered := lower (Str.strip (ai_text payload))).
  pose proof (present_count_bounds negative_keywords lowered) as Bn.
  pose proof (present_count_bounds positive_keywords lowered) as Bp.
  rewrite negative_keywords_length in Bn. rewrite positive_keywords_length in Bp.
  split; [reflexivity|]. split.
  - apply risk_score_error; lia.
  - apply risk_score_range.
Qed.

Lemma analyze_risk_score_formula_witness :
  Str.strip (ai_text scenario_alcohol) <> [] /\
  exists resp st' tr,
    run unavailable (analyze_text Str.lower_latin1 scenario_alcohol) 0%nat
      = (Ok resp, st', tr) /\
    an_risk_score resp = B64.lit 0.8 /\ (0 <= an_risk_score resp <= 1)%Q.
Proof.
  assert (H : Str.strip (ai_text scenario_alcohol) <> []) by (vm_compute; discriminate).
  split; [exact H|].
  destruct (analyze_risk_score_formula Str.lower_latin1 nat unavailable 0%nat
              scenario_alcohol H) as (resp & st' & tr & R & F & _ & B).
  exists resp, st', tr. split; [exact R|]. split; [|exact B].
  rewrite F. vm_compute. reflexivity.
Defined.

Lemma sentiment_labels_distinct :
  u "positive" <> u "negative" /\ u "positive" <> u "neutral"
  /\ u "negative" <> u "neutral".
Proof. repeat split; intro H; vm_compute in H; discriminate. Qed.

Lemma sentiment_of_rule n p :
  (sentiment_of n p = u "positive" <-> (p > n /\ p > 0)%Z)
  /\ (sentiment_of n p = u "negative" <-> (n > p /\ n > 0)%Z)
  /\ (sentiment_of n p = u "neutral"
      <-> ~ (p > n /\ p > 0)%Z /\ ~ (n > p /\ n > 0)%Z).
Proof.
  destruct sentiment_labels_distinct as (D1 & D2 & D3).
  assert (D1' : u "negative" <> u "positive") by congruence.
  assert (D2' : u "neutral" <> u "positive") by congruence.
  assert (D3' : u "neutral" <> u "negative") by congruence.
  unfold sentiment_of.
  destruct (Z.gtb_spec p n), (Z.gtb_spec p 0), (Z.gtb_spec n p), (Z.gtb_spec n 0);
    cbn [andb]; repeat split; intros; try lia; try congruence;
    exfalso; congruence.
Qed.

(** C2.  For a text that is not blank the analyzer answers with sentiment
    "positive" exactly when [pos_hits > neg_hits] and [pos_hits > 0],
    "negative" exactly when [neg_hits > pos_hits] and [neg_hits > 0], and
    "neutral" in every other case; in particular a tie, with or without
    hits, is "neutral". *)
Theorem analyze_sentiment_rule :
  forall (lower : str -> str) (S : Type) (g : gateway S) (st : S)
         (payload : AnalysisInput),
    Str.strip (ai_text payload) <> [] ->
    exists resp st' tr,
      run g (analyze_text lower payload) st = (Ok resp, st', tr) /\
      let lowered := lower (Str.strip (ai_text payload)) in
      let neg_hits := present_count negative_keywords lowered in
      let pos_hits := present_count positive_keywords lowered in
      (an_sentiment resp = u "positive" <-> (pos_hits > neg_hits /\ pos_hits > 0)%Z)
      /\ (an_sentiment resp = u "negative" <-> (neg_hits > pos_hits /\ neg_hits > 0)%Z)
      /\ (an_sentiment resp = u "neutral"
          <-> ~ (pos_hits > neg_hits /\ pos_hits > 0)%Z
              /\ ~ (neg_hits > pos_hits /\ neg_hits > 0)%Z)
      /\ (pos_hits = neg_hits -> an_sentiment resp = u "neutral").
Proof.
  intros lower S g st payload H.
  pose proof (analyze_text_run lower S g st payload H) as R.
  destruct (gw_create g _ _ st) as [o st1].
  eexists _, _, _. split; [exact R|].
  cbn zeta. unfold analysis. cbn [an_sentiment].
  rewrite !hits_present_count.
  set (n := present_count negative_keywords _).
  set (p := present_count positive_keywords _).
  destruct (sentiment_of_rule n p) as (P & N & Z0).
  repeat split; try apply P; try apply N; try apply Z0; try tauto.
  intros E. apply Z0. lia.
Qed.

Lemma analyze_sentiment_rule_witness :
  Str.strip (ai_text scenario_alcohol) <> [] /\
  exists resp st' tr,
    run unavailable (analyze_text Str.lower_latin1 scenario_alcohol) 0%nat
      = (Ok resp, st', tr) /\
    an_sentiment resp = u "negative".
Proof.
  assert (H : Str.strip (ai_text scenario_alcohol) <> []) by (vm_compute; discriminate).
  split; [exact H|].
  destruct (analyze_sentiment_rule Str.lower_latin1 nat unavailable 0%nat
              scenario_alcohol H) as (resp & st' & tr & R & _ & N & _).
  exists resp, st', tr. split; [exact R|].
  apply N. vm_compute. split; reflexivity.
Defined.

(** C3.  A request whose text is empty or made of white space only is
    refused with status 400 before anything else happens: the handler is
    the bare failure, so whatever the gateway is, no call reaches it, the
    store is left as it was and no analysis is returned. *)
Theorem analyze_blank_text_rejected :
  forall (lower : str -> str) (payload : AnalysisInput),
    forallb Str.isspace (ai_text payload) = true ->
    Str.strip (ai_text payload) = []
    /\ analyze_text lower payload
       = Raise (HTTPException 400 (u "Text cannot be empty"))
    /\ forall (S : Type) (g : gateway S) (st : S),
         run g (analyze_text lower payload) st
         = (Failed (HTTPException 400 (u "Text cannot be empty")), st, [])
         /\ http_status (fst (fst (run g (analyze_text lower payload) st))) = 400%Z.
Proof.
  intros lower payload H.
  apply StrFacts.strip_nil_iff in H.
  assert (E : analyze_text lower payload
              = Raise (HTTPException 400 (u "Text cannot be empty"))).
  { unfold analyze_text. rewrite H. reflexivity. }
  split; [exact H|]. split; [exact E|].
  intros S g st. rewrite E. split; reflexivity.
Qed.

Lemma analyze_blank_text_rejected_witness :
  forallb Str.isspace (u "  ") = true /\
  run unavailable
    (analyze_text Str.lower_latin1 {| ai_text := u "  "; ai_user_id := None |}) 0%nat
  = (Failed (HTTPException 400 (u "Text cannot be empty")), 0%nat, []).
Proof.
  assert (H : forallb Str.isspace (u "  ") = true) by reflexivity.
  split; [exact H|].
  apply (analyze_blank_text_rejected Str.lower_latin1
           {| ai_text := u "  "; ai_user_id := None |} H).
Defined.

Lemma first_matches_firstn n keywords lowered :
  first_matches n keywords lowered
  = firstn n (filter (fun k => Str.contains k lowered) keywords).
Proof.
  revert n. induction keywords as [|k ks IH]; intros n.
  - destruct n; reflexivity.
  - cbn [first_matches filter]. destruct n as [|n].
    + reflexivity.
    + destruct (Str.contains k lowered).
      * cbn [firstn]. now rewrite IH.
      * apply IH.
Qed.

(** C5.  For a text that is not blank the analyzer answers, and
    [key_themes] is made of the first keywords, at most six, of the fixed
    list (the eight negative keywords, then the seven positive ones) that
    occur in the lower-cased text, in the order of that list; so it never
    has more than six entries. *)
Theorem analyze_key_themes :
  forall (lower : str -> str) (S : Type) (g : gateway S) (st : S)
         (payload : AnalysisInput),
    Str.strip (ai_text payload) <> [] ->
    exists resp st' tr,
      run g (analyze_text lower payload) st = (Ok resp, st', tr) /\
      an_key_themes resp
      = first_matches 6 (negative_keywords ++ positive_keywords)
          (lower (Str.strip (ai_text payload)))
      /\ (length (an_key_themes resp) <= 6)%nat
      /\ length negative_keywords = 8%nat /\ length positive_keywords = 7%nat.
Proof.
  intros lower S g st payload H.
  pose proof (analyze_text_run lower S g st payload H) as R.
  destruct (gw_create g _ _ st) as [o st1].
  eexists _, _, _. split; [exact R|].
  unfold analysis. cbn [an_key_themes]. unfold key_themes_of.
  split; [now rewrite first_matches_firstn|].
  split; [apply firstn_le_length|].
  split; reflexivity.
Qed.

(** The order is that of the keyword list, not that of the text. *)
Lemma analyze_key_themes_witness :
  Str.strip (ai_text scenario_order) <> [] /\
  exists resp st' tr,
    run unavailable (analyze_text Str.lower_latin1 scenario_order) 0%nat
      = (Ok resp, st', tr) /\
    an_key_themes resp = [u "angst"; u "bereit"].
Proof.
  assert (H : Str.strip (ai_text scenario_order) <> []) by (vm_compute; discriminate).
  split; [exact H|].
  destruct (analyze_key_themes Str.lower_latin1 nat unavailable 0%nat
              scenario_order H) as (resp & st' & tr & R & K & _).
  exists resp, st', tr. split; [exact R|].
  rewrite K. vm_compute. reflexivity.
Defined.

(** ** Persistence fall-backs *)

Lemma add_checklist_item_run (S : Type) (g : gateway S) (st : S) payload :
  run g (add_checklist_item payload) st =
  let item := {| ci_user_id := cc_user_id payload; ci_title := cc_title payload;
                 ci_completed := false |} in
  let (o, st1) := gw_create g (u "checklistitem") (RChecklistItem item) st in
  (Ok {| cr_id := id_of o; cr_title := cc_title payload; cr_completed := false |},
   st1, [EvCreate (u "checklistitem") (RChecklistItem item) o]).
Proof.
  unfold add_checklist_item. cbn [bind try_except create_document run].
  destruct (gw_create g _ _ st) as [[i|e] st1]; reflexivity.
Qed.

Lemma start_session_run (S : Type) (g : gateway S) (st : S) payload :
  run g (start_session payload) st =
  let session := {| ts_user_id := si_user_id payload; ts_status := u "started";
                    ts_questions := session_questions; ts_answers := None;
                    ts_score := None; ts_feedback := None |} in
  let (o, st1) := gw_create g (u "trainingsession") (RTrainingSession session) st in
  (Ok {| so_session_id := id_of o; so_questions := session_questions |},
   st1, [EvCreate (u "trainingsession") (RTrainingSession session) o]).
Proof.
  unfold start_session, TrainingSession_new. cbn [ts_status].
  change (existsb (Str.eqb (u "started")) [u "started"; u "submitted"]) with true.
  cbn [bind try_except create_document run].
  destruct (gw_create g _ _ st) as [[i|e] st1]; reflexivity.
Qed.

Lemma completeness_returns answers :
  exists c, completeness_of answers = Ret c.
Proof.
  unfold completeness_of, int_truediv.
  destruct (Z.eqb_spec (Z.max 1 (Z.of_nat (length answers))) 0) as [E|_]; [lia|].
  eexists. reflexivity.
Qed.

Lemma depth_sum_cases answers acc :
  (exists d, depth_sum answers acc = Ret d) \/ depth_sum answers acc = Raise TypeError.
Proof.
  revert acc. induction answers as [|a rest IH]; intros acc.
  - left. now exists acc.
  - cbn [depth_sum].
    destruct (dict_get a (u "text") (VStr [])); cbn [py_len bind];
      try (now right); unfold int_truediv; cbn [Z.eqb bind]; apply IH.
Qed.

Lemma depth_cases answers :
  (exists d, depth_of answers = Ret d) \/ depth_of answers = Raise TypeError.
Proof.
  unfold depth_of.
  destruct (depth_sum_cases answers (B64.of_int 0)) as [[d ->] | ->].
  - left. cbn [bind]. unfold float_truediv.
    destruct (Z.eqb_spec (Z.max 1 (Z.of_nat (length answers))) 0) as [E|_]; [lia|].
    eexists. reflexivity.
  - now right.
Qed.

Lemma submit_session_run (S : Type) (g : gateway S) (st : S) payload cm dp :
  completeness_of (sb_answers payload) = Ret cm ->
  depth_of (sb_answers payload) = Ret dp ->
  run g (submit_session payload) st =
  let result := {| ts_user_id := sb_user_id payload; ts_status := u "submitted";
                   ts_questions := []; ts_answers := Some (sb_answers payload);
                   ts_score := Some (score_of cm dp);
                   ts_feedback := Some (feedback_of cm dp) |} in
  let (o, st1) := gw_create g (u "trainingsession") (RTrainingSession result) st in
  (Ok {| sr_score := score_of cm dp; sr_feedback := feedback_of cm dp;
         sr_id := id_of o |},
   st1, [EvCreate (u "trainingsession") (RTrainingSession result) o]).
Proof.
  intros Hc Hd. unfold submit_session. rewrite Hc. cbn [bind]. rewrite Hd. cbn [bind].
  unfold TrainingSession_new. cbn [ts_status].
  change (existsb (Str.eqb (u "submitted")) [u "started"; u "submitted"]) with true.
  cbn [bind try_except create_document run].
  destruct (gw_create g _ _ st) as [[i|e] st1]; reflexivity.
Qed.

Lemma submit_session_type_error (S : Type) (g : gateway S) (st : S) payload :
  depth_of (sb_answers payload) = Raise TypeError ->
  run g (submit_session payload) st = (Failed TypeError, st, []).
Proof.
  intros Hd. unfold submit_session.
  destruct (completeness_returns (sb_answers payload)) as [c ->].
  cbn [bind]. rewrite Hd. reflexivity.
Qed.

Ltac single_create H Hin :=
  injection H as <- _ <-; destruct Hin as [Hin | []]; injection Hin as _ _ ->.

(** C4.  Whenever the persistence call of a handler raises, the handler
    still answers with everything it computed and a null identifier:
    [analyze_text] with its sentiment, risk score, key themes and
    recommendations, [add_checklist_item] with the title and
    [completed = false], and likewise [start_session] and
    [submit_session]. *)
Theorem persistence_failure_swallowed :
  forall (S : Type) (g : gateway S) (st : S),
    (forall lower payload res st' tr c d e,
        run g (analyze_text lower payload) st = (res, st', tr) ->
        In (EvCreate c d (Raised e)) tr ->
        res = Ok (analysis lower payload None))
    /\ (forall payload res st' tr c d e,
        run g (add_checklist_item payload) st = (res, st', tr) ->
        In (EvCreate c d (Raised e)) tr ->
        res = Ok {| cr_id := None; cr_title := cc_title payload;
                    cr_completed := false |})
    /\ (forall payload res st' tr c d e,
        run g (start_session payload) st = (res, st', tr) ->
        In (EvCreate c d (Raised e)) tr ->
        res = Ok {| so_session_id := None; so_questions := session_questions |})
    /\ (forall payload res st' tr c d e,
        run g (submit_session payload) st = (res, st', tr) ->
        In (EvCreate c d (Raised e)) tr ->
        exists cm dp,
          completeness_of (sb_answers payload) = Ret cm
          /\ depth_of (sb_answers payload) = Ret dp
          /\ res = Ok {| sr_score := score_of cm dp;
                         sr_feedback := feedback_of cm dp; sr_id := None |}).
Proof.
  intros S g st. repeat split.
  - intros lower payload res st' tr c d e R Hin.
    destruct (Str.strip (ai_text payload)) as [|ch t] eqn:E.
    + unfold analyze_text in R. rewrite E in R. cbn in R.
      injection R as _ _ <-. destruct Hin.
    + rewrite analyze_text_run in R by (rewrite E; discriminate).
      cbn zeta in R. destruct (gw_create g _ _ st) as [o st1].
      single_create R Hin. reflexivity.
  - intros payload res st' tr c d e R Hin.
    rewrite add_checklist_item_run in R. cbn zeta in R.
    destruct (gw_create g _ _ st) as [o st1].
    single_create R Hin. reflexivity.
  - intros payload res st' tr c d e R Hin.
    rewrite start_session_run in R. cbn zeta in R.
    destruct (gw_create g _ _ st) as [o st1].
    single_create R Hin. reflexivity.
  - intros payload res st' tr c d e R Hin.
    destruct (completeness_returns (sb_answers payload)) as [cm Hc].
    destruct (depth_cases (sb_answers payload)) as [[dp Hd] | Hd].
    + rewrite (submit_session_run S g st payload cm dp Hc Hd) in R. cbn zeta in R.
      destruct (gw_create g _ _ st) as [o st1].
      single_create R Hin. exists cm, dp. repeat split; assumption.
    + rewrite submit_session_type_error in R by exact Hd.
      injection R as _ _ <-. destruct Hin.
Qed.

(** ** The session scorer *)

Section ScorerFacts.

Import B64Facts.
Local Open Scope Q_scope.

Lemma rnd_le_fixed q c : q <= c -> B64.rnd c == c -> B64.rnd q <= c.
Proof. intros H E. rewrite <- E. now apply rnd_mono. Qed.

Lemma rnd_unit_interval q : 0 <= q <= 1 -> 0 <= B64.rnd q <= 1.
Proof.
  intros [H0 H1]. split; [now apply rnd_nonneg|].
  apply rnd_le_fixed; [exact H1 | reflexivity].
Qed.

Lemma count_truthy_length (answers : list dict) :
  py_sum (map (fun _ => 1%Z)
            (filter (fun a => truthy (dict_get a (u "text") VNone)) answers))
  = Z.of_nat (length (filter (fun a => truthy (dict_get a (u "text") VNone)) answers)).
Proof.
  induction (filter _ answers) as [|a l IH]; [reflexivity|].
  cbn [map length]. rewrite py_sum_cons, IH. lia.
Qed.

Lemma inject_Z_div_unit a b :
  (0 <= a <= b)%Z -> (0 < b)%Z -> 0 <= inject_Z a / inject_Z b <= 1.
Proof.
  intros Ha Hb.
  assert (Qb : 0 < inject_Z b) by (change 0 with (inject_Z 0); rewrite <- Zlt_Qlt; lia).
  assert (Qa : 0 <= inject_Z a) by (change 0 with (inject_Z 0); rewrite <- Zle_Qle; lia).
  assert (Qab : inject_Z a <= inject_Z b) by (rewrite <- Zle_Qle; lia).
  split.
  - apply Qle_shift_div_l; [exact Qb | lra].
  - apply Qle_shift_div_r; [exact Qb | lra].
Qed.

(** Completeness is always computed and is a fraction. *)
Lemma completeness_range answers :
  exists c, completeness_of answers = Ret c /\ 0 <= c <= 1.
Proof.
  unfold completeness_of, int_truediv.
  destruct (Z.eqb_spec (Z.max 1 (Z.of_nat (length answers))) 0) as [E|_]; [lia|].
  eexists. split; [reflexivity|].
  apply rnd_unit_interval. rewrite count_truthy_length.
  pose proof (filter_length_le (fun a => truthy (dict_get a (u "text") VNone)) answers).
  apply inject_Z_div_unit; lia.
Qed.

Lemma min_one_range q : 0 <= q -> 0 <= B64.min (B64.lit 1.0) q <= 1.
Proof.
  intros H. rewrite lit_one. unfold B64.min, B64.ltb.
  destruct (Qle_bool 1 q) eqn:E; cbn [negb].
  - split; discriminate.
  - assert (~ 1 <= q) by (rewrite <- Qle_bool_iff, E; discriminate). split; lra.
Qed.

Lemma sized_len v :
  sized v = true -> exists n, py_len v = Ret n /\ (0 <= n)%Z.
Proof.
  destruct v; try discriminate; intros _; eexists; (split; [reflexivity | lia]).
Qed.

Lemma rnd_saturates : B64.rnd (inject_Z (2 ^ 53 + 1)) == inject_Z (2 ^ 53).
Proof. vm_compute. reflexivity. Qed.

Lemma depth_sum_range answers :
  texts_sized answers ->
  forall (k : Z) (acc : Q),
    (0 <= k)%Z -> 0 <= acc <= inject_Z (Z.min k (2 ^ 53)) ->
    exists total,
      depth_sum answers acc = Ret total
      /\ 0 <= total <= inject_Z (Z.min (k + Z.of_nat (length answers)) (2 ^ 53)).
Proof.
  induction 1 as [|a rest Ha _ IH]; intros k acc Hk Hacc.
  - exists acc. split; [reflexivity|]. cbn [length]. now rewrite Z.add_0_r.
  - cbn [depth_sum].
    destruct (sized_len _ Ha) as (n & -> & Hn). cbn [bind].
    unfold int_truediv. cbn [Z.eqb bind].
    set (t := B64.min (B64.lit 1.0) (B64.rnd (inject_Z n / inject_Z 120))).
    assert (Ht : 0 <= t <= 1).
    { apply min_one_range. apply rnd_nonneg.
      apply Qle_shift_div_l; [reflexivity|]. rewrite Qmult_0_l.
      change 0 with (inject_Z 0). rewrite <- Zle_Qle. exact Hn. }
    destruct (IH (k + 1)%Z (B64.add acc t)) as (total & E & R).
    + lia.
    + unfold B64.add. split; [apply rnd_nonneg; lra|].
      destruct (Z_lt_le_dec k (2 ^ 53)) as [L|G].
      * rewrite Z.min_l by lia. rewrite Z.min_l in Hacc by lia.
        apply rnd_le_fixed.
        -- rewrite inject_Z_plus. change (inject_Z 1) with 1. lra.
        -- apply rnd_int. unfold B64.prec. lia.
      * rewrite Z.min_r by lia. rewrite Z.min_r in Hacc by lia.
        rewrite <- rnd_saturates. apply rnd_mono.
        rewrite inject_Z_plus. change (inject_Z 1) with 1. lra.
    + exists total. split; [exact E|].
      cbn [length]. replace (k + Z.of_nat (S (length rest)))%Z
        with (k + 1 + Z.of_nat (length rest))%Z by lia.
      exact R.
Qed.

(** With texts that have a length, depth is computed and is a fraction. *)
Lemma depth_range answers :
  texts_sized answers ->
  exists d, depth_of answers = Ret d /\ 0 <= d <= 1.
Proof.
  intros H. unfold depth_of.
  destruct (depth_sum_range answers H 0%Z (B64.of_int 0)) as (total & -> & T0 & T1).
  - lia.
  - split; [discriminate | vm_compute; discriminate].
  - cbn [bind]. unfold float_truediv.
    set (n := Z.max 1 (Z.of_nat (length answers))).
    destruct (Z.eqb_spec n 0) as [E|_]; [unfold n in E; lia|].
    eexists. split; [reflexivity|].
    unfold B64.div. apply rnd_unit_interval.
    assert (N1 : 1 <= B64.of_int n).
    { unfold B64.of_int. change 1 with (B64.rnd (inject_Z 1)) at 1.
      apply rnd_mono. rewrite <- Zle_Qle. unfold n. lia. }
    assert (TN : total <= B64.of_int n).
    { rewrite Z.add_0_l in T1. unfold B64.of_int.
      destruct (Z_le_gt_dec n (2 ^ 53)) as [L|G].
      - rewrite rnd_int by (unfold B64.prec; unfold n in *; lia).
        assert (inject_Z (Z.min (Z.of_nat (length answers)) (2 ^ 53)) <= inject_Z n)
          by (rewrite <- Zle_Qle; unfold n; lia).
        lra.
      - assert (inject_Z (2 ^ 53) <= B64.rnd (inject_Z n)).
        { rewrite <- (rnd_int (2 ^ 53)) by (unfold B64.prec; lia).
          apply rnd_mono. rewrite <- Zle_Qle. lia. }
        assert (inject_Z (Z.min (Z.of_nat (length answers)) (2 ^ 53)) <= inject_Z (2 ^ 53))
          by (rewrite <- Zle_Qle; lia).
        lra. }
    split.
    + apply Qle_shift_div_l; [lra|]. rewrite Qmult_0_l. exact T0.
    + apply Qle_shift_div_r; [lra|]. lra.
Qed.

Lemma rne_le_int x k : x <= inject_Z k -> (B64.rne x <= k)%Z.
Proof. intros H. rewrite <- (rne_Z k). now apply rne_mono. Qed.

Lemma rne_ge_int x k : inject_Z k <= x -> (k <= B64.rne x)%Z.
Proof. intros H. rewrite <- (rne_Z k) at 1. now apply rne_mono. Qed.

(** The score of two fractions lies between 0 and 100. *)
Lemma score_range c d :
  0 <= c <= 1 -> 0 <= d <= 1 -> 0 <= score_of c d <= 100.
Proof.
  intros [C0 C1] [D0 D1]. unfold score_of, B64.round1, B64.mul, B64.add.
  assert (P4 : 0 <= B64.lit 0.4) by (vm_compute; discriminate).
  assert (P6 : 0 <= B64.lit 0.6) by (vm_compute; discriminate).
  assert (F4 : B64.rnd (B64.lit 0.4) == B64.lit 0.4) by (vm_compute; reflexivity).
  assert (F6 : B64.rnd (B64.lit 0.6) == B64.lit 0.6) by (vm_compute; reflexivity).
  assert (F1 : B64.rnd (B64.lit 0.4 + B64.lit 0.6) == 1) by (vm_compute; reflexivity).
  assert (H100 : B64.of_int 100 == 100) by (vm_compute; reflexivity).
  set (a := B64.rnd (B64.lit 0.4 * c)).
  set (b := B64.rnd (B64.lit 0.6 * d)).
  assert (Ha : 0 <= a <= B64.lit 0.4).
  { split; [apply rnd_nonneg; nra | apply rnd_le_fixed; [nra | exact F4]]. }
  assert (Hb : 0 <= b <= B64.lit 0.6).
  { split; [apply rnd_nonneg; nra | apply rnd_le_fixed; [nra | exact F6]]. }
  set (s := B64.rnd (a + b)).
  assert (Hs : 0 <= s <= 1).
  { split; [apply rnd_nonneg; lra|].
    rewrite <- F1. apply rnd_mono. lra. }
  set (y := B64.rnd (B64.of_int 100 * s)).
  assert (Hy : 0 <= y <= 100).
  { split; [apply rnd_nonneg; rewrite H100; nra|].
    apply rnd_le_fixed; [rewrite H100; nra | vm_compute; reflexivity]. }
  assert (R0 : (0 <= B64.rne (y * 10))%Z).
  { apply rne_ge_int. change (inject_Z 0) with 0. lra. }
  assert (R1 : (B64.rne (y * 10) <= 1000)%Z).
  { apply rne_le_int. change (inject_Z 1000) with 1000. lra. }
  rewrite Zle_Qle in R0, R1. change (inject_Z 0) with 0 in R0.
  change (inject_Z 1000) with 1000 in R1.
  split.
  - apply rnd_nonneg. apply Qle_shift_div_l; [reflexivity | lra].
  - apply rnd_le_fixed; [|vm_compute; reflexivity].
    apply Qle_shift_div_r; [reflexivity | lra].
Qed.

End ScorerFacts.

Lemma persistence_failure_swallowed_witness :
  fst (fst (run unavailable (analyze_text Str.lower_latin1 scenario_alcohol) 0%nat))
  = Ok (analysis Str.lower_latin1 scenario_alcohol None)
  /\ fst (fst (run unavailable
                 (add_checklist_item {| cc_user_id := u "u1"; cc_title := u "Termin" |})
                 0%nat))
     = Ok {| cr_id := None; cr_title := u "Termin"; cr_completed := false |}.
Proof.
  destruct (persistence_failure_swallowed nat unavailable 0%nat) as (A & C & _).
  split.
  - set (r := run unavailable (analyze_text Str.lower_latin1 scenario_alcohol) 0%nat).
    apply (A Str.lower_latin1 scenario_alcohol (fst (fst r)) (snd (fst r)) (snd r)
             (u "analysisreport")
             (RAnalysisReport (analysis_report Str.lower_latin1 scenario_alcohol))
             (GatewayError (u "Database not available"))).
    + vm_compute. reflexivity.
    + vm_compute. left. reflexivity.
  - set (p := {| cc_user_id := u "u1"; cc_title := u "Termin" |}).
    set (r := run unavailable (add_checklist_item p) 0%nat).
    apply (C p (fst (fst r)) (snd (fst r)) (snd r)
             (u "checklistitem")
             (RChecklistItem {| ci_user_id := u "u1"; ci_title := u "Termin";
                                ci_completed := false |})
             (GatewayError (u "Database not available"))).
    + vm_compute. reflexivity.
    + vm_compute. left. reflexivity.
Defined.

Lemma get_checklist_run (py_str : value -> str) (S : Type) (g : gateway S) (st : S)
  (user_id : str) :
  run g (get_checklist py_str user_id) st =
  let (o, st1) := gw_get g (u "checklistitem") [(u "user_id", VStr user_id)] 100 st in
  (Ok match o with
      | Returned items => map (public_id py_str) items
      | Raised _ => demo_checklist
      end,
   st1, [EvGet (u "checklistitem") [(u "user_id", VStr user_id)] 100 o]).
Proof.
  unfold get_checklist. cbn [bind try_except get_documents run].
  destruct (gw_get g _ _ _ st) as [[items|e] st1]; reflexivity.
Qed.

(** C6.  When the persistence read raises, [get_checklist] answers with
    the fixed demo list of three items, each with [completed = false],
    and never with an error; when the read succeeds with no item, it
    answers with the empty list, which is not the demo list. *)
Theorem checklist_fallback :
  forall (py_str : value -> str) (S : Type) (g : gateway S) (st : S) (user_id : str),
    let read := gw_get g (u "checklistitem") [(u "user_id", VStr user_id)] 100 st in
    (forall e, fst read = Raised e ->
       fst (fst (run g (get_checklist py_str user_id) st)) = Ok demo_checklist)
    /\ (fst read = Returned [] ->
       fst (fst (run g (get_checklist py_str user_id) st)) = Ok [])
    /\ length demo_checklist = 3%nat
    /\ Forall (fun it => dict_lookup it (u "completed") = Some (VBool false))
         demo_checklist.
Proof.
  intros py_str S g st user_id read. subst read.
  rewrite get_checklist_run.
  destruct (gw_get g _ _ _ st) as [o st1]. cbn [fst].
  split; [intros e ->; reflexivity|].
  split; [intros ->; reflexivity|].
  split; [reflexivity|].
  repeat constructor.
Qed.

Lemma checklist_fallback_witness :
  fst (fst (run unavailable (get_checklist (fun _ => []) (u "u1")) 0%nat))
  = Ok demo_checklist
  /\ fst (fst (run (scripted (Returned (u "1")) (Returned []))
                 (get_checklist (fun _ => []) (u "u1")) 0%nat))
     = Ok [].
Proof.
  split.
  - apply (proj1 (checklist_fallback (fun _ => []) nat unavailable 0%nat (u "u1"))
             (GatewayError (u "Database not available"))).
    reflexivity.
  - apply (proj1 (proj2 (checklist_fallback (fun _ => []) nat
                           (scripted (Returned (u "1")) (Returned [])) 0%nat (u "u1")))).
    reflexivity.
Defined.

(** The two divisions of the scorer never fail: whatever the answers,
    completeness is computed, and depth is computed unless some text has
    no length. *)
Lemma scorer_never_divides_by_zero answers :
  (exists c, completeness_of answers = Ret c)
  /\ ((exists d, depth_of answers = Ret d) \/ depth_of answers = Raise TypeError).
Proof. split; [apply completeness_returns | apply depth_cases]. Qed.

(** When every text that is present has a length, [submit_session]
    answers; completeness and depth lie in [[0, 1]] and the score in
    [[0, 100]], for every number of answers, none included. *)
Lemma scorer_ranges (S : Type) (g : gateway S) (st : S) payload :
  texts_sized (sb_answers payload) ->
  exists cm dp st' tr o,
    completeness_of (sb_answers payload) = Ret cm
    /\ depth_of (sb_answers payload) = Ret dp
    /\ (0 <= cm <= 1)%Q /\ (0 <= dp <= 1)%Q
    /\ (0 <= score_of cm dp <= 100)%Q
    /\ run g (submit_session payload) st
       = (Ok {| sr_score := score_of cm dp; sr_feedback := feedback_of cm dp;
                sr_id := id_of o |}, st', tr).
Proof.
  intros H.
  destruct (completeness_range (sb_answers payload)) as (cm & Hc & Rc).
  destruct (depth_range (sb_answers payload) H) as (dp & Hd & Rd).
  pose proof (submit_session_run S g st payload cm dp Hc Hd) as R. cbn zeta in R.
  destruct (gw_create g _ _ st) as [o st1].
  eexists cm, dp, st1, _, o.
  split; [exact Hc|]. split; [exact Hd|].
  split; [exact Rc|]. split; [exact Rd|].
  split; [apply score_range; assumption | exact R].
Qed.

Lemma scorer_ranges_empty :
  exists cm dp st' tr o,
    completeness_of [] = Ret cm /\ depth_of [] = Ret dp
    /\ (0 <= cm <= 1)%Q /\ (0 <= dp <= 1)%Q /\ (0 <= score_of cm dp <= 100)%Q
    /\ run unavailable
         (submit_session {| sb_session_id := None; sb_user_id := u "u1";
                            sb_answers := [] |}) 0%nat
       = (Ok {| sr_score := score_of cm dp; sr_feedback := feedback_of cm dp;
                sr_id := id_of o |}, st', tr).
Proof.
  apply (scorer_ranges nat unavailable 0%nat
           {| sb_session_id := None; sb_user_id := u "u1"; sb_answers := [] |}).
  constructor.
Defined.

(** C7.  The answers [[{"text": null}]] pass the validation of the
    request, yet the scorer does not produce a score for them: [len] is
    applied to the null text, the request fails with a [TypeError]
    (status 500) and nothing is stored. *)
Theorem submit_null_text_fails :
  forall (S : Type) (g : gateway S) (st : S),
    completeness_of (sb_answers scenario_null_text) = Ret 0%Q
    /\ depth_of (sb_answers scenario_null_text) = Raise TypeError
    /\ run g (submit_session scenario_null_text) st = (Failed TypeError, st, [])
    /\ http_status (fst (fst (run g (submit_session scenario_null_text) st))) = 500%Z.
Proof.
  intros S g st.
  assert (D : depth_of (sb_answers scenario_null_text) = Raise TypeError) by reflexivity.
  split; [vm_compute; reflexivity|]. split; [exact D|].
  rewrite (submit_session_type_error S g st scenario_null_text D).
  split; reflexivity.
Qed.

(** C8.  For the answers [[{"text": "kurz"}, {}]]: completeness is 0.5,
    depth is the binary64 value of 1/60, the rounded score is exactly
    21.0, and the feedback is the completeness sentence, one space, and
    the depth sentence. *)
Theorem submit_short_answers_scenario :
  forall (S : Type) (g : gateway S) (st : S) (session_id : option str) (user_id : str),
    completeness_of scenario_short_answers = Ret (1 # 2)
    /\ depth_of scenario_short_answers = Ret (B64.rnd (1 # 60))
    /\ score_of (1 # 2) (B64.rnd (1 # 60)) = 21%Q
    /\ feedback_of (1 # 2) (B64.rnd (1 # 60)) = fb_complete ++ u " " ++ fb_deeper
    /\ exists o st' tr,
         run g (submit_session {| sb_session_id := session_id; sb_user_id := user_id;
                                  sb_answers := scenario_short_answers |}) st
         = (Ok {| sr_score := 21%Q;
                  sr_feedback := fb_complete ++ u " " ++ fb_deeper;
                  sr_id := id_of o |}, st', tr).
Proof.
  intros S g st session_id user_id.
  assert (Hc : completeness_of scenario_short_answers = Ret (1 # 2))
    by (vm_compute; reflexivity).
  assert (Hd : depth_of scenario_short_answers = Ret (B64.rnd (1 # 60)))
    by (vm_compute; reflexivity).
  assert (Hs : score_of (1 # 2) (B64.rnd (1 # 60)) = 21%Q) by (vm_compute; reflexivity).
  assert (Hf : feedback_of (1 # 2) (B64.rnd (1 # 60)) = fb_complete ++ u " " ++ fb_deeper)
    by (vm_compute; reflexivity).
  repeat (split; [assumption|]).
  pose proof (submit_session_run S g st
                {| sb_session_id := session_id; sb_user_id := user_id;
                   sb_answers := scenario_short_answers |} _ _ Hc Hd) as R.
  cbn zeta in R. destruct (gw_create g _ _ st) as [o st1].
  eexists o, st1, _. rewrite R, Hs, Hf. reflexivity.
Qed.

(** The product handed to [round] is 21.000000000000004 in binary64, as
    the kernel's floats compute it too. *)
Lemma short_answers_raw_score_ieee :
  B64.of_prim (IEEE.raw_score 1 2 [4; 0]%Z)
  = Some (B64.of_int 100 * (B64.lit 0.4 * (1 # 2) + B64.lit 0.6 * B64.rnd (1 # 60)))%b64
  /\ B64.round1 (B64.of_int 100 * (B64.lit 0.4 * (1 # 2) + B64.lit 0.6 * B64.rnd (1 # 60)))%b64
     = 21%Q.
Proof. split; vm_compute; reflexivity. Qed.

(** [round(x, 1)] on three familiar inputs: 0.25 is a tie and goes to the
    even digit, 0.35 is stored just below and 0.45 just above the
    midpoint. *)
Lemma round1_examples :
  B64.round1 (B64.lit 0.25) = B64.lit 0.2
  /\ B64.round1 (B64.lit 0.35) = B64.lit 0.3
  /\ B64.round1 (B64.lit 0.45) = B64.lit 0.5.
Proof. repeat split; vm_compute; reflexivity. Qed.

(** The decimal literals of the handlers round to the values the kernel
    reads for them. *)
#[warnings="-inexact-float"]
Lemma literals_ieee :
  B64.of_prim 0.1%float = Some (B64.lit 0.1)
  /\ B64.of_prim 0.15%float = Some (B64.lit 0.15)
  /\ B64.of_prim 0.2%float = Some (B64.lit 0.2)
  /\ B64.of_prim 0.4%float = Some (B64.lit 0.4)
  /\ B64.of_prim 0.6%float = Some (B64.lit 0.6)
  /\ B64.of_prim 0.8%float = Some (B64.lit 0.8).
Proof. repeat split; vm_compute; reflexivity. Qed.

(** The risk score agrees with its evaluation by the kernel's floats for
    every possible pair of hit counts. *)
Lemma risk_score_ieee n p :
  (0 <= n <= 8)%Z -> (0 <= p <= 7)%Z ->
  B64.of_prim (IEEE.risk_score n p) = Some (risk_score_of n p).
Proof.
  intros Hn Hp.
  enumerate n 0%Z 8%Z; enumerate p 0%Z 7%Z; vm_compute; reflexivity.
Qed.

(** C9.  For "Ich habe große Angst und Sorge wegen meines
    Alkohol-Problems" the negative keywords found are angst, sorge,
    problem and alkohol, no positive keyword is found, the sentiment is
    "negative", the risk score is 0.8, and the recommendations contain
    the counselling advice and the abstinence documentation advice. *)
Theorem analyze_alcohol_scenario :
  forall (S : Type) (g : gateway S) (st : S),
    let lowered := Str.lower_latin1 (Str.strip (ai_text scenario_alcohol)) in
    lowered = u "ich habe große angst und sorge wegen meines alkohol-problems"
    /\ filter (fun k => Str.contains k lowered) negative_keywords
       = [u "angst"; u "sorge"; u "problem"; u "alkohol"]
    /\ hits negative_keywords lowered = 4%Z
    /\ hits positive_keywords lowered = 0%Z
    /\ exists resp st' tr,
         run g (analyze_text Str.lower_latin1 scenario_alcohol) st = (Ok resp, st', tr)
         /\ an_sentiment resp = u "negative"
         /\ an_risk_score resp = B64.lit 0.8
         /\ In rec_counselling (an_recommendations resp)
         /\ In rec_abstinence (an_recommendations resp).
Proof.
  intros S g st lowered. subst lowered.
  repeat (split; [vm_compute; reflexivity|]).
  pose proof (analyze_text_run Str.lower_latin1 S g st scenario_alcohol) as R.
  destruct (gw_create g _ _ st) as [o st1].
  eexists _, _, _. split; [apply R; vm_compute; discriminate|].
  split; [vm_compute; reflexivity|].
  split; [vm_compute; reflexivity|].
  split; vm_compute; [left | right; left]; reflexivity.
Qed.

(** ** Overlapping keywords *)

Lemma str_eqb_eq a b : Str.eqb a b = true <-> a = b.
Proof.
  unfold Str.eqb. destruct (list_eq_dec N.eq_dec a b); split; congruence.
Qed.

Lemma not_in_by_eqb x l : existsb (Str.eqb x) l = false -> ~ In x l.
Proof.
  intros H Hin. assert (E : existsb (Str.eqb x) l = true).
  { apply existsb_exists. exists x. split; [exact Hin | now apply str_eqb_eq]. }
  congruence.
Qed.

Lemma vorbereitet_holds_bereit s :
  Str.contains (u "vorbereitet") s = true -> Str.contains (u "bereit") s = true.
Proof.
  apply (StrFacts.contains_infix (u "vor") (u "bereit") (u "et")).
Qed.

Lemma in_firstn {A} (n : nat) (l : list A) (x : A) : In x (firstn n l) -> In x l.
Proof.
  intros H. rewrite <- (firstn_skipn n l). apply in_or_app. now left.
Qed.

Lemma firstn_short {A} (n : nat) (l1 l2 : list A) :
  (length l1 <= n)%nat -> firstn n (l1 ++ l2) = l1 ++ firstn (n - length l1) l2.
Proof.
  intros H. rewrite firstn_app. f_equal. now apply firstn_all2.
Qed.

(** The key themes when "vorbereitet" occurs: the negative keywords found,
    then "vorbereitet", "bereit" and the other positive keywords found,
    cut after six entries. *)
Lemma key_themes_with_vorbereitet lowered :
  Str.contains (u "vorbereitet") lowered = true ->
  exists rest,
    key_themes_of lowered
    = firstn 6 (filter (fun k => Str.contains k lowered) negative_keywords
                ++ u "vorbereitet" :: u "bereit" :: rest).
Proof.
  intros Hv. pose proof (vorbereitet_holds_bereit lowered Hv) as Hb.
  unfold key_themes_of. rewrite filter_app.
  unfold positive_keywords at 1. cbn [filter]. rewrite Hv, Hb.
  eexists. reflexivity.
Qed.

(** C10, as stated, fails: with six negative keywords in the text,
    "vorbereitet" occurs in the lower-cased text and neither it nor
    "bereit" is among the key themes. *)
Lemma vorbereitet_cut_from_key_themes :
  Str.contains (u "vorbereitet")
    (Str.lower_latin1 (Str.strip (ai_text scenario_six_negatives))) = true
  /\ exists resp,
       fst (fst (run unavailable
                   (analyze_text Str.lower_latin1 scenario_six_negatives) 0%nat))
       = Ok resp
       /\ an_key_themes resp
          = [u "angst"; u "sorge"; u "problem"; u "unsicher"; u "stress"; u "alkohol"]
       /\ ~ In (u "vorbereitet") (an_key_themes resp)
       /\ ~ In (u "bereit") (an_key_themes resp).
Proof.
  split; [vm_compute; reflexivity|].
  eexists. split; [vm_compute; reflexivity|].
  cbn [an_key_themes].
  split; [reflexivity|].
  split; apply not_in_by_eqb; vm_compute; reflexivity.
Qed.

(** C10, amended.  When the lower-cased text contains "vorbereitet" it
    contains "bereit" too, so both keywords are hits and
    [pos_hits >= 2]; since the key themes keep the first six matches
    with the negative keywords first, "vorbereitet" is a key theme
    exactly when at most five negative keywords occur and "bereit"
    exactly when at most four do, and then the two follow the negative
    matches in list order. *)
Theorem vorbereitet_counts_twice :
  forall (lower : str -> str) (S : Type) (g : gateway S) (st : S)
         (payload : AnalysisInput),
    Str.strip (ai_text payload) <> [] ->
    let lowered := lower (Str.strip (ai_text payload)) in
    let neg_hits := present_count negative_keywords lowered in
    let pos_hits := present_count positive_keywords lowered in
    Str.contains (u "vorbereitet") lowered = true ->
    exists resp st' tr,
      run g (analyze_text lower payload) st = (Ok resp, st', tr)
      /\ Str.contains (u "bereit") lowered = true
      /\ (2 <= pos_hits)%Z
      /\ (In (u "vorbereitet") (an_key_themes resp) <-> (neg_hits <= 5)%Z)
      /\ (In (u "bereit") (an_key_themes resp) <-> (neg_hits <= 4)%Z)
      /\ ((neg_hits <= 4)%Z ->
          exists rest,
            an_key_themes resp
            = filter (fun k => Str.contains k lowered) negative_keywords
              ++ u "vorbereitet" :: u "bereit" :: rest).
Proof.
  intros lower S g st payload H lowered neg_hits pos_hits Hv.
  pose proof (analyze_text_run lower S g st payload H) as R.
  destruct (gw_create g _ _ st) as [o st1].
  eexists _, _, _. split; [exact R|].
  pose proof (vorbereitet_holds_bereit lowered Hv) as Hb.
  split; [exact Hb|].
  split.
  { subst pos_hits. unfold present_count, positive_keywords. cbn [filter].
    rewrite Hv, Hb. cbn [length]. lia. }
  unfold analysis. cbn [an_key_themes]. fold lowered.
  destruct (key_themes_with_vorbereitet lowered Hv) as [rest ->].
  subst neg_hits. unfold present_count.
  set (negs := filter (fun k => Str.contains k lowered) negative_keywords).
  assert (Sub : forall x, In x negs -> In x negative_keywords)
    by (intros x Hx; apply filter_In in Hx; tauto).
  assert (Nv : ~ In (u "vorbereitet") negs)
    by (intros Hx; apply Sub in Hx; revert Hx; apply not_in_by_eqb; reflexivity).
  assert (Nb : ~ In (u "bereit") negs)
    by (intros Hx; apply Sub in Hx; revert Hx; apply not_in_by_eqb; reflexivity).
  assert (Dvb : u "bereit" <> u "vorbereitet") by (intro E; vm_compute in E; discriminate).
  assert (Cut : forall x, (6 <= length negs)%nat ->
                  In x (firstn 6 (negs ++ u "vorbereitet" :: u "bereit" :: rest)) ->
                  In x negs).
  { intros x L Hx. rewrite firstn_app in Hx.
    replace (6 - length negs)%nat with 0%nat in Hx by lia.
    rewrite firstn_0, app_nil_r in Hx.
    revert Hx. apply in_firstn. }
  split; [|split].
  - split.
    + intros Hx. destruct (le_gt_dec (length negs) 5) as [L|G]; [lia|].
      exfalso. apply Nv. apply Cut; [lia | exact Hx].
    + intros L. rewrite firstn_short by lia.
      apply in_or_app. right.
      destruct (6 - length negs)%nat as [|m] eqn:E; [lia|]. now left.
  - split.
    + intros Hx. destruct (le_gt_dec (length negs) 4) as [L|G]; [lia|].
      exfalso. destruct (le_gt_dec (length negs) 5) as [L5|G5].
      * rewrite firstn_short in Hx by lia.
        replace (6 - length negs)%nat with 1%nat in Hx by lia.
        cbn [firstn] in Hx. apply in_app_or in Hx.
        destruct Hx as [Hx | [Hx | []]]; [now apply Nb | now apply Dvb].
      * apply Nb. apply Cut; [lia | exact Hx].
    + intros L. rewrite firstn_short by lia.
      apply in_or_app. right.
      destruct (6 - length negs)%nat as [|[|m]] eqn:E; try lia. right. now left.
  - intros L. rewrite firstn_short by lia.
    destruct (6 - length negs)%nat as [|[|m]] eqn:E; try lia.
    cbn [firstn]. eexists. reflexivity.
Qed.

Lemma vorbereitet_counts_twice_witness :
  Str.strip (ai_text scenario_prepared) <> []
  /\ Str.contains (u "vorbereitet")
       (Str.lower_latin1 (Str.strip (ai_text scenario_prepared))) = true
  /\ exists resp st' tr,
       run unavailable (analyze_text Str.lower_latin1 scenario_prepared) 0%nat
       = (Ok resp, st', tr)
       /\ In (u "vorbereitet") (an_key_themes resp)
       /\ In (u "bereit") (an_key_themes resp).
Proof.
  assert (H : Str.strip (ai_text scenario_prepared) <> []) by (vm_compute; discriminate).
  assert (V : Str.contains (u "vorbereitet")
                (Str.lower_latin1 (Str.strip (ai_text scenario_prepared))) = true)
    by (vm_compute; reflexivity).
  split; [exact H|]. split; [exact V|].
  destruct (vorbereitet_counts_twice Str.lower_latin1 nat unavailable 0%nat
              scenario_prepared H V) as (resp & st' & tr & R & _ & _ & Iv & Ib & _).
  exists resp, st', tr. split; [exact R|].
  split; [apply Iv | apply Ib]; vm_compute; discriminate.
Defined.

(** ** Further properties of the analyzer *)

Section RiskOrder.

Import B64Facts.
Local Open Scope Q_scope.

Lemma of_int_mono a b : (a <= b)%Z -> B64.of_int a <= B64.of_int b.
Proof. intros H. apply rnd_mono. now rewrite <- Zle_Qle. Qed.

Lemma Qle_bool_false x y : Qle_bool x y = false -> y < x.
Proof.
  intros E. destruct (Qlt_le_dec y x) as [L|G]; [exact L|].
  apply Qle_bool_iff in G. congruence.
Qed.

Lemma b64_min_mono a x y : x <= y -> B64.min a x <= B64.min a y.
Proof.
  intros H. unfold B64.min, B64.ltb.
  destruct (Qle_bool a x) eqn:E1, (Qle_bool a y) eqn:E2; cbn [negb].
  - apply Qle_refl.
  - apply Qle_bool_iff in E1. apply Qle_bool_false in E2. lra.
  - apply Qle_bool_false in E1. lra.
  - exact H.
Qed.

Lemma b64_max_mono a x y : x <= y -> B64.max a x <= B64.max a y.
Proof.
  intros H. unfold B64.max, B64.gtb.
  destruct (Qle_bool x a) eqn:E1, (Qle_bool y a) eqn:E2; cbn [negb].
  - apply Qle_refl.
  - apply Qle_bool_false in E2. lra.
  - apply Qle_bool_iff in E2. apply Qle_bool_false in E1. lra.
  - exact H.
Qed.

Lemma risk_score_of_mono n n' p p' :
  (n <= n')%Z -> (p' <= p)%Z -> risk_score_of n p <= risk_score_of n' p'.
Proof.
  intros Hn Hp. unfold risk_score_of.
  apply b64_min_mono, b64_max_mono.
  unfold B64.sub, B64.add, B64.mul.
  assert (P15 : 0 <= B64.lit 0.15) by (vm_compute; discriminate).
  assert (P1 : 0 <= B64.lit 0.1) by (vm_compute; discriminate).
  pose proof (of_int_mono n n' Hn) as Mn. pose proof (of_int_mono p' p Hp) as Mp.
  assert (A : B64.rnd (B64.lit 0.15 * B64.of_int n) <= B64.rnd (B64.lit 0.15 * B64.of_int n'))
    by (apply rnd_mono; nra).
  assert (B : B64.rnd (B64.lit 0.1 * B64.of_int p') <= B64.rnd (B64.lit 0.1 * B64.of_int p))
    by (apply rnd_mono; nra).
  assert (C : B64.rnd (B64.lit 0.2 + B64.rnd (B64.lit 0.15 * B64.of_int n))
              <= B64.rnd (B64.lit 0.2 + B64.rnd (B64.lit 0.15 * B64.of_int n')))
    by (apply rnd_mono; lra).
  apply rnd_mono. lra.
Qed.

End RiskOrder.

Lemma in_existsb x l : In x l <-> existsb (Str.eqb x) l = true.
Proof.
  rewrite existsb_exists. split.
  - intros H. exists x. split; [exact H | now apply str_eqb_eq].
  - intros [y [H E]]. apply str_eqb_eq in E. now subst.
Qed.

Lemma present_in_count k keywords lowered :
  In k keywords -> Str.contains k lowered = true ->
  (1 <= present_count keywords lowered)%Z.
Proof.
  intros Hin Hc. unfold present_count.
  assert (H : In k (filter (fun k => Str.contains k lowered) keywords))
    by (apply filter_In; split; assumption).
  destruct (filter _ keywords); [destruct H | cbn [length]; lia].
Qed.

(** The test behind the counselling advice, over all possible counts. *)
Lemma counselling_test n p :
  (0 <= n <= 8)%Z -> (0 <= p <= 7)%Z ->
  B64.geb (risk_score_of n p) (B64.lit 0.6) = true
  <-> (8 <= 3 * n - 2 * p)%Z /\ ~ (n = 6 /\ p = 5)%Z.
Proof.
  intros Hn Hp.
  enumerate n 0%Z 8%Z; enumerate p 0%Z 7%Z;
    match goal with
    | |- ?t = true <-> _ => let b := eval vm_compute in t in change t with b
    end;
    (split; [first [discriminate | intros _; lia] | first [reflexivity | intros; lia]]).
Qed.

Ltac decide_in :=
  repeat match goal with
         | |- context [In ?x ?l] => rewrite (in_existsb x l)
         | H : context [In ?x ?l] |- _ => rewrite (in_existsb x l) in H
         end.

Lemma recs_counselling lowered risk p :
  In rec_counselling (recs_of lowered risk p)
  <-> B64.geb risk (B64.lit 0.6) = true.
Proof.
  unfold recs_of.
  destruct (B64.geb risk (B64.lit 0.6)),
    (Str.contains (u "alkohol") lowered || Str.contains (u "drogen") lowered),
    (p =? 0)%Z, (Str.contains (u "therapie") lowered);
    rewrite in_existsb; vm_compute; split; congruence.
Qed.

(** The shape of the recommendations, whatever the risk and the count. *)
Lemma recs_shape lowered risk p :
  ((p =? 0)%Z && Str.contains (u "therapie") lowered = false) ->
  let recs := recs_of lowered risk p in
  (1 <= length recs <= 3)%nat
  /\ NoDup recs
  /\ (In rec_default recs ->
      recs = [rec_default] /\ B64.geb risk (B64.lit 0.6) = false /\ p <> 0%Z)
  /\ ~ (In rec_examples recs /\ In rec_therapy recs)
  /\ (In rec_examples recs <-> p = 0%Z)
  /\ (In rec_therapy recs <-> Str.contains (u "therapie") lowered = true)
  /\ (In rec_abstinence recs
      <-> Str.contains (u "alkohol") lowered = true
          \/ Str.contains (u "drogen") lowered = true).
Proof.
  intros Hx recs. subst recs. unfold recs_of.
  rewrite <- (orb_true_iff (Str.contains (u "alkohol") lowered)).
  destruct (Z.eqb_spec p 0) as [Hp|Hp];
  destruct (B64.geb risk (B64.lit 0.6)),
    (Str.contains (u "alkohol") lowered || Str.contains (u "drogen") lowered),
    (Str.contains (u "therapie") lowered); try discriminate Hx;
    cbn [app is_empty];
    (split; [cbn [length]; lia|]);
    (split; [repeat constructor; decide_in; vm_compute; congruence|]);
    (split; [rewrite in_existsb; vm_compute; intros H; first [discriminate H | repeat split; congruence]|]);
    (split; [rewrite !in_existsb; vm_compute; intros [H1 H2]; congruence|]);
    (split; [rewrite in_existsb; vm_compute; split; congruence|]);
    (split; rewrite in_existsb; vm_compute; split; congruence).
Qed.

Lemma analyze_text_answer (lower : str -> str) (S : Type) (g : gateway S) (st : S)
  (payload : AnalysisInput) :
  Str.strip (ai_text payload) <> [] ->
  exists o,
    fst (fst (run g (analyze_text lower payload) st))
    = Ok (analysis lower payload (id_of o)).
Proof.
  intros H. rewrite (analyze_text_run lower S g st payload H).
  destruct (gw_create g _ _ st) as [o st1]. now exists o.
Qed.

Lemma present_counts_in_range lowered :
  (0 <= present_count negative_keywords lowered <= 8)%Z
  /\ (0 <= present_count positive_keywords lowered <= 7)%Z.
Proof.
  pose proof (present_count_bounds negative_keywords lowered) as Bn.
  pose proof (present_count_bounds positive_keywords lowered) as Bp.
  rewrite negative_keywords_length in Bn. rewrite positive_keywords_length in Bp.
  lia.
Qed.

(** A text with at least as many negative keywords and at most as many
    positive keywords as another one never gets a lower risk score. *)
Theorem analyze_risk_monotone :
  forall (lower : str -> str) (S : Type) (g : gateway S) (st : S)
         (payload payload' : AnalysisInput),
    Str.strip (ai_text payload) <> [] ->
    Str.strip (ai_text payload') <> [] ->
    let lowered := lower (Str.strip (ai_text payload)) in
    let lowered' := lower (Str.strip (ai_text payload')) in
    (present_count negative_keywords lowered
     <= present_count negative_keywords lowered')%Z ->
    (present_count positive_keywords lowered'
     <= present_count positive_keywords lowered)%Z ->
    exists resp resp',
      fst (fst (run g (analyze_text lower payload) st)) = Ok resp
      /\ fst (fst (run g (analyze_text lower payload') st)) = Ok resp'
      /\ (an_risk_score resp <= an_risk_score resp')%Q.
Proof.
  intros lower S g st payload payload' H H' lowered lowered' Hn Hp.
  destruct (analyze_text_answer lower S g st payload H) as [o R].
  destruct (analyze_text_answer lower S g st payload' H') as [o' R'].
  eexists _, _. split; [exact R|]. split; [exact R'|].
  unfold analysis. cbn [an_risk_score]. rewrite !hits_present_count.
  now apply risk_score_of_mono.
Qed.

Lemma analyze_risk_monotone_witness :
  exists resp resp',
    fst (fst (run unavailable (analyze_text Str.lower_latin1 scenario_calm) 0%nat))
    = Ok resp
    /\ fst (fst (run unavailable (analyze_text Str.lower_latin1 scenario_alcohol) 0%nat))
       = Ok resp'
    /\ (an_risk_score resp <= an_risk_score resp')%Q.
Proof.
  apply (analyze_risk_monotone Str.lower_latin1 nat unavailable 0%nat
           scenario_calm scenario_alcohol);
    vm_compute; discriminate.
Defined.

(** The counselling advice is given exactly when
    [3 * neg_hits - 2 * pos_hits >= 8], except for six negative and five
    positive hits: there the exact risk is 0.6 but the computed one is
    0.5999999999999999, and the advice is not given. *)
Theorem analyze_counselling_threshold :
  forall (lower : str -> str) (S : Type) (g : gateway S) (st : S)
         (payload : AnalysisInput),
    Str.strip (ai_text payload) <> [] ->
    let lowered := lower (Str.strip (ai_text payload)) in
    let neg_hits := present_count negative_keywords lowered in
    let pos_hits := present_count positive_keywords lowered in
    exists resp,
      fst (fst (run g (analyze_text lower payload) st)) = Ok resp
      /\ (In rec_counselling (an_recommendations resp)
          <-> (8 <= 3 * neg_hits - 2 * pos_hits)%Z
              /\ ~ (neg_hits = 6 /\ pos_hits = 5)%Z)
      /\ ((neg_hits = 6 /\ pos_hits = 5)%Z ->
          exact_risk neg_hits pos_hits == 6 # 10
          /\ (an_risk_score resp < B64.lit 0.6)%Q).
Proof.
  intros lower S g st payload H lowered neg_hits pos_hits.
  destruct (analyze_text_answer lower S g st payload H) as [o R].
  eexists. split; [exact R|].
  unfold analysis. cbn [an_recommendations an_risk_score].
  fold lowered. rewrite !hits_present_count. fold neg_hits pos_hits.
  destruct (present_counts_in_range lowered) as [Bn Bp].
  split.
  - rewrite recs_counselling. now apply counselling_test.
  - intros [-> ->]. split; vm_compute; reflexivity.
Qed.

Lemma analyze_counselling_threshold_witness :
  exists resp,
    fst (fst (run unavailable (analyze_text Str.lower_latin1 scenario_six_five) 0%nat))
    = Ok resp
    /\ ~ In rec_counselling (an_recommendations resp)
    /\ (an_risk_score resp < B64.lit 0.6)%Q.
Proof.
  destruct (analyze_counselling_threshold Str.lower_latin1 nat unavailable 0%nat
              scenario_six_five) as (resp & R & I & E).
  - vm_compute. discriminate.
  - exists resp. split; [exact R|]. split.
    + intros Hin. apply I in Hin. destruct Hin as [_ N]. apply N.
      vm_compute. split; reflexivity.
    + apply E. vm_compute. split; reflexivity.
Defined.

Lemma keyword_memberships :
  In (u "therapie") positive_keywords
  /\ In (u "alkohol") negative_keywords /\ In (u "drogen") negative_keywords.
Proof. repeat split; apply in_existsb; vm_compute; reflexivity. Qed.

Lemma therapy_excludes_examples lowered :
  (present_count positive_keywords lowered =? 0)%Z
  && Str.contains (u "therapie") lowered = false.
Proof.
  destruct (Str.contains (u "therapie") lowered) eqn:T; [|apply andb_false_r].
  pose proof (present_in_count (u "therapie") positive_keywords lowered
                (proj1 keyword_memberships) T) as P.
  destruct (Z.eqb_spec (present_count positive_keywords lowered) 0); [lia | reflexivity].
Qed.

Lemma geb_false_lt (x c : Q) : B64.geb x c = false -> (x < c)%Q.
Proof. unfold B64.geb. apply Qle_bool_false. Qed.

Lemma recommendations_of_counts lowered :
  let neg_hits := present_count negative_keywords lowered in
  let pos_hits := present_count positive_keywords lowered in
  let risk := risk_score_of neg_hits pos_hits in
  let recs := recs_of lowered risk pos_hits in
  (1 <= length recs <= 3)%nat
  /\ NoDup recs
  /\ ~ (In rec_examples recs /\ In rec_therapy recs)
  /\ (In rec_default recs ->
      recs = [rec_default] /\ (risk < B64.lit 0.6)%Q /\ (1 <= pos_hits)%Z)
  /\ (In rec_examples recs <-> pos_hits = 0%Z)
  /\ (In rec_abstinence recs -> (1 <= neg_hits)%Z).
Proof.
  intros neg_hits pos_hits risk recs.
  destruct (present_counts_in_range lowered) as [Bn Bp].
  destruct (recs_shape lowered risk pos_hits (therapy_excludes_examples lowered))
    as (L & D & Df & X & E & _ & A).
  split; [exact L|]. split; [exact D|]. split; [exact X|].
  split; [|split; [exact E|]].
  - intros Hin. destruct (Df Hin) as (E1 & E2 & E3).
    split; [exact E1|]. split; [exact (geb_false_lt _ _ E2)|].
    subst pos_hits. lia.
  - intros Hin. apply A in Hin. destruct Hin as [Hc|Hc].
    + exact (present_in_count (u "alkohol") negative_keywords lowered
               (proj1 (proj2 keyword_memberships)) Hc).
    + exact (present_in_count (u "drogen") negative_keywords lowered
               (proj2 (proj2 keyword_memberships)) Hc).
Qed.

(** The recommendations of an analysis: between one and three distinct
    strings; the advice to work out examples and the advice about therapy
    never come together, because "therapie" is itself a positive keyword;
    the default encouragement only comes alone, and only when the risk is
    below 0.6 and some positive keyword occurs. *)
Theorem analyze_recommendations_shape :
  forall (lower : str -> str) (S : Type) (g : gateway S) (st : S)
         (payload : AnalysisInput),
    Str.strip (ai_text payload) <> [] ->
    let lowered := lower (Str.strip (ai_text payload)) in
    let neg_hits := present_count negative_keywords lowered in
    let pos_hits := present_count positive_keywords lowered in
    exists resp,
      fst (fst (run g (analyze_text lower payload) st)) = Ok resp
      /\ (1 <= length (an_recommendations resp) <= 3)%nat
      /\ NoDup (an_recommendations resp)
      /\ ~ (In rec_examples (an_recommendations resp)
            /\ In rec_therapy (an_recommendations resp))
      /\ (In rec_default (an_recommendations resp) ->
          an_recommendations resp = [rec_default]
          /\ (an_risk_score resp < B64.lit 0.6)%Q /\ (1 <= pos_hits)%Z)
      /\ (In rec_examples (an_recommendations resp) <-> pos_hits = 0%Z)
      /\ (In rec_abstinence (an_recommendations resp) -> (1 <= neg_hits)%Z).
Proof.
  intros lower S g st payload H lowered neg_hits pos_hits.
  destruct (analyze_text_answer lower S g st payload H) as [o R].
  exists (analysis lower payload (id_of o)). split; [exact R|].
  unfold analysis. cbn [an_recommendations an_risk_score].
  rewrite !hits_present_count.
  exact (recommendations_of_counts lowered).
Qed.

Lemma analyze_recommendations_shape_witness :
  exists resp,
    fst (fst (run unavailable (analyze_text Str.lower_latin1 scenario_calm) 0%nat))
    = Ok resp
    /\ an_recommendations resp = [rec_default].
Proof.
  destruct (analyze_recommendations_shape Str.lower_latin1 nat unavailable 0%nat
              scenario_calm) as (resp & R & _ & _ & _ & Df & _).
  - vm_compute. discriminate.
  - exists resp. split; [exact R|]. apply Df.
    assert (E : resp = analysis Str.lower_latin1 scenario_calm None).
    { assert (R' : fst (fst (run unavailable
                               (analyze_text Str.lower_latin1 scenario_calm) 0%nat))
                   = Ok (analysis Str.lower_latin1 scenario_calm None))
        by (vm_compute; reflexivity).
      congruence. }
    rewrite E. vm_compute. left. reflexivity.
Defined.

(** For a text that is not blank exactly one persistence call is made, a
    create in "analysisreport"; the report it stores holds the trimmed
    text and the user of the request, and the same sentiment, risk
    score, key themes and recommendations as the answer; the answer's
    [id] is the identifier the gateway returned, if any. *)
Theorem analyze_stores_what_it_returns :
  forall (lower : str -> str) (S : Type) (g : gateway S) (st : S)
         (payload : AnalysisInput),
    Str.strip (ai_text payload) <> [] ->
    exists report o st' resp,
      run g (analyze_text lower payload) st
      = (Ok resp, st', [EvCreate (u "analysisreport") (RAnalysisReport report) o])
      /\ gw_create g (u "analysisreport") (RAnalysisReport report) st = (o, st')
      /\ ar_input_text report = Str.strip (ai_text payload)
      /\ ar_user_id report = ai_user_id payload
      /\ ar_sentiment report = an_sentiment resp
      /\ ar_risk_score report = an_risk_score resp
      /\ ar_key_themes report = an_key_themes resp
      /\ ar_recommendations report = an_recommendations resp
      /\ an_id resp = id_of o.
Proof.
  intros lower S g st payload H.
  pose proof (analyze_text_run lower S g st payload H) as R.
  destruct (gw_create g (u "analysisreport")
              (RAnalysisReport (analysis_report lower payload)) st) as [o st1] eqn:G.
  exists (analysis_report lower payload), o, st1, (analysis lower payload (id_of o)).
  split; [exact R|]. split; [exact G|].
  unfold analysis_report, analysis.
  cbn [ar_input_text ar_user_id ar_sentiment ar_risk_score ar_key_themes
       ar_recommendations an_sentiment an_risk_score an_key_themes
       an_recommendations an_id].
  split; [reflexivity|]. split; [reflexivity|]. split; [reflexivity|].
  split; [reflexivity|]. split; [reflexivity|]. split; reflexivity.
Qed.

Lemma analyze_stores_what_it_returns_witness :
  exists report o st' resp,
    run (scripted (Returned (u "65a1")) (Returned []))
      (analyze_text Str.lower_latin1 scenario_alcohol) 0%nat
    = (Ok resp, st', [EvCreate (u "analysisreport") (RAnalysisReport report) o])
    /\ ar_risk_score report = an_risk_score resp
    /\ an_id resp = Some (u "65a1").
Proof.
  destruct (analyze_stores_what_it_returns Str.lower_latin1 nat
              (scripted (Returned (u "65a1")) (Returned [])) 0%nat scenario_alcohol)
    as (report & o & st' & resp & R & G & _ & _ & _ & Er & _ & _ & Ei).
  - vm_compute. discriminate.
  - exists report, o, st', resp. split; [exact R|]. split; [exact Er|].
    rewrite Ei. cbn in G. injection G as <- _. reflexivity.
Defined.





(** Every create call a handler makes stores a record that satisfies the
    constraints of its shape, in the collection named by the lower-cased
    name of its class. *)
Theorem create_calls_well_formed :
  forall (S : Type) (g : gateway S) (st : S),
    (forall lower payload,
        Forall well_formed_call (snd (run g (analyze_text lower payload) st)))
    /\ (forall payload,
          Forall well_formed_call (snd (run g (start_session payload) st)))
    /\ (forall payload,
          Forall well_formed_call (snd (run g (submit_session payload) st)))
    /\ (forall payload,
          Forall well_formed_call (snd (run g (add_checklist_item payload) st)))
    /\ (forall py_str user_id,
          Forall well_formed_call (snd (run g (get_checklist py_str user_id) st))).
Proof.
  intros S g st. split; [|split; [|split; [|split]]].
  - intros lower payload.
    destruct (Str.strip (ai_text payload)) as [|c t] eqn:E.
    + unfold analyze_text. rewrite E. constructor.
    + rewrite analyze_text_run by (rewrite E; discriminate).
      destruct (gw_create g _ _ st). cbn [snd].
      constructor; [|constructor]. split; [reflexivity|].
      unfold analysis_report, record_valid. cbn [ar_sentiment ar_risk_score].
      destruct (risk_score_range (hits negative_keywords (lower (Str.strip (ai_text payload))))
                  (hits positive_keywords (lower (Str.strip (ai_text payload)))))
        as [R0 R1].
      unfold B64.geb, B64.leb. apply Qle_bool_iff in R0, R1. rewrite R0, R1.
      destruct (sentiment_of_cases
                  (hits negative_keywords (lower (Str.strip (ai_text payload))))
                  (hits positive_keywords (lower (Str.strip (ai_text payload)))))
        as [-> | [-> | ->]]; reflexivity.
  - intros payload. rewrite start_session_run. cbn zeta.
    destruct (gw_create g _ _ st). cbn [snd].
    constructor; [|constructor]. split; reflexivity.
  - intros payload.
    destruct (completeness_returns (sb_answers payload)) as [cm Hc].
    destruct (depth_cases (sb_answers payload)) as [[dp Hd]|Hd].
    + rewrite (submit_session_run S g st payload cm dp Hc Hd). cbn zeta.
      destruct (gw_create g _ _ st). cbn [snd].
      constructor; [|constructor]. split; reflexivity.
    + rewrite (submit_session_type_error S g st payload Hd). constructor.
  - intros payload. rewrite add_checklist_item_run. cbn zeta.
    destruct (gw_create g _ _ st). cbn [snd].
    constructor; [|constructor]. split; reflexivity.
  - intros py_str user_id. rewrite get_checklist_run.
    destruct (gw_get g _ _ _ st). cbn [snd].
    constructor; [exact I | constructor].
Qed.

(** ** Further properties of the session scorer *)

Section ScoreOrder.

Import B64Facts.
Local Open Scope Q_scope.

Lemma rnd_canonical q : B64.rnd q = Qred (B64.rnd q).
Proof.
  unfold B64.rnd. destruct (Qnum q); [reflexivity| |];
    symmetry; apply Qred_complete, Qred_correct.
Qed.

Lemma rnd_Qeq_eq x y : x == y -> B64.rnd x = B64.rnd y.
Proof.
  intros E. rewrite (rnd_canonical x), (rnd_canonical y).
  apply Qred_complete. now rewrite E.
Qed.

Lemma score_of_mono c d c' d' :
  c <= c' -> d <= d' -> score_of c d <= score_of c' d'.
Proof.
  intros Hc Hd. unfold score_of, B64.round1, B64.mul, B64.add.
  assert (P4 : 0 <= B64.lit 0.4) by (vm_compute; discriminate).
  assert (P6 : 0 <= B64.lit 0.6) by (vm_compute; discriminate).
  assert (H100 : 0 <= B64.of_int 100) by (vm_compute; discriminate).
  assert (A : B64.rnd (B64.lit 0.4 * c) <= B64.rnd (B64.lit 0.4 * c'))
    by (apply rnd_mono; nra).
  assert (B : B64.rnd (B64.lit 0.6 * d) <= B64.rnd (B64.lit 0.6 * d'))
    by (apply rnd_mono; nra).
  set (a := B64.rnd (B64.lit 0.4 * c)) in *. set (a' := B64.rnd (B64.lit 0.4 * c')) in *.
  set (b := B64.rnd (B64.lit 0.6 * d)) in *. set (b' := B64.rnd (B64.lit 0.6 * d')) in *.
  assert (C : B64.rnd (a + b) <= B64.rnd (a' + b')) by (apply rnd_mono; lra).
  set (s := B64.rnd (a + b)) in *. set (s' := B64.rnd (a' + b')) in *.
  assert (D : B64.rnd (B64.of_int 100 * s) <= B64.rnd (B64.of_int 100 * s'))
    by (apply rnd_mono; nra).
  set (y := B64.rnd (B64.of_int 100 * s)) in *.
  set (y' := B64.rnd (B64.of_int 100 * s')) in *.
  assert (E : (B64.rne (y * 10) <= B64.rne (y' * 10))%Z) by (apply rne_mono; lra).
  rewrite Zle_Qle in E.
  apply rnd_mono. apply Qmult_le_compat_r; [exact E | discriminate].
Qed.

End ScoreOrder.

Section ScorerMore.

Import B64Facts.
Local Open Scope Q_scope.

Lemma submit_session_answer (S : Type) (g : gateway S) (st : S) payload cm dp :
  completeness_of (sb_answers payload) = Ret cm ->
  depth_of (sb_answers payload) = Ret dp ->
  exists o,
    fst (fst (run g (submit_session payload) st))
    = Ok {| sr_score := score_of cm dp; sr_feedback := feedback_of cm dp;
            sr_id := id_of o |}.
Proof.
  intros Hc Hd. rewrite (submit_session_run S g st payload cm dp Hc Hd). cbn zeta.
  destruct (gw_create g _ _ st) as [o st1]. now exists o.
Qed.


Lemma text_len_get a n :
  text_len a = Some n ->
  exists s, dict_get a (u "text") (VStr []) = VStr s /\ length s = n
            /\ truthy (dict_get a (u "text") VNone) = negb (Nat.eqb n 0).
Proof.
  unfold text_len, dict_get. destruct (dict_lookup a (u "text")) as [v|].
  - destruct v; try discriminate. intros E. injection E as <-.
    exists s. repeat split.
  - intros E. injection E as <-. exists []. repeat split.
Qed.

Lemma depth_sum_step a rest acc n :
  text_len a = Some n ->
  depth_sum (a :: rest) acc = depth_sum rest (B64.add acc (depth_term n)).
Proof.
  intros H. destruct (text_len_get a n H) as (s & E & L & _).
  cbn [depth_sum]. rewrite E. cbn [py_len bind]. unfold int_truediv.
  cbn [Z.eqb bind]. rewrite L. reflexivity.
Qed.

Lemma depth_term_mono n n' : (n <= n')%nat -> depth_term n <= depth_term n'.
Proof.
  intros H. unfold depth_term. apply b64_min_mono, rnd_mono.
  apply Qmult_le_compat_r; [|discriminate]. rewrite <- Zle_Qle. lia.
Qed.

Lemma depth_sum_mono answers answers' :
  texts_extended answers answers' ->
  forall acc acc', acc <= acc' ->
  exists t t',
    depth_sum answers acc = Ret t /\ depth_sum answers' acc' = Ret t' /\ t <= t'.
Proof.
  induction 1 as [|a a' rest rest' (n & n' & Hn & Hn' & Le) _ IH]; intros acc acc' Hacc.
  - exists acc, acc'. repeat split. exact Hacc.
  - rewrite (depth_sum_step a rest acc n Hn), (depth_sum_step a' rest' acc' n' Hn').
    apply IH. unfold B64.add. apply rnd_mono.
    pose proof (depth_term_mono n n' Le). lra.
Qed.

Lemma answered_mono answers answers' :
  texts_extended answers answers' -> (answered answers <= answered answers')%Z.
Proof.
  unfold answered.
  induction 1 as [|a a' rest rest' (n & n' & Hn & Hn' & Le) _ IH]; [cbn; lia|].
  destruct (text_len_get a n Hn) as (_ & _ & _ & T).
  destruct (text_len_get a' n' Hn') as (_ & _ & _ & T').
  cbn [filter]. rewrite T, T'.
  destruct n, n'; cbn [Nat.eqb negb length]; try lia.
Qed.

Lemma completeness_value answers :
  completeness_of answers
  = Ret (B64.rnd (inject_Z (answered answers)
                  / inject_Z (Z.max 1 (Z.of_nat (length answers))))).
Proof.
  unfold completeness_of, int_truediv, answered.
  destruct (Z.eqb_spec (Z.max 1 (Z.of_nat (length answers))) 0) as [E|_]; [lia|].
  now rewrite count_truthy_length.
Qed.

Lemma texts_extended_sized answers answers' :
  texts_extended answers answers' -> texts_sized answers /\ texts_sized answers'.
Proof.
  induction 1 as [|a a' rest rest' (n & n' & Hn & Hn' & Le) _ [IH IH']].
  - split; constructor.
  - destruct (text_len_get a n Hn) as (s & E & _).
    destruct (text_len_get a' n' Hn') as (s' & E' & _).
    split; constructor; try assumption; [rewrite E | rewrite E']; reflexivity.
Qed.

Lemma Forall2_same_length {A B} (R : A -> B -> Prop) l l' :
  Forall2 R l l' -> length l = length l'.
Proof. induction 1; cbn; congruence. Qed.

(** Making texts longer, answer by answer, never lowers completeness,
    depth or the score. *)
Theorem longer_texts_never_lower_score :
  forall (S : Type) (g : gateway S) (st : S) (payload payload' : SubmitSessionInput),
    texts_extended (sb_answers payload) (sb_answers payload') ->
    exists cm dp cm' dp' resp resp',
      completeness_of (sb_answers payload) = Ret cm
      /\ depth_of (sb_answers payload) = Ret dp
      /\ completeness_of (sb_answers payload') = Ret cm'
      /\ depth_of (sb_answers payload') = Ret dp'
      /\ cm <= cm' /\ dp <= dp'
      /\ fst (fst (run g (submit_session payload) st)) = Ok resp
      /\ fst (fst (run g (submit_session payload') st)) = Ok resp'
      /\ sr_score resp <= sr_score resp'.
Proof.
  intros S g st payload payload' H.
  pose proof (Forall2_same_length _ _ _ H) as Len.
  pose proof (answered_mono _ _ H) as Ha.
  destruct (depth_sum_mono _ _ H (B64.of_int 0) (B64.of_int 0) (Qle_refl _))
    as (t & t' & Et & Et' & Lt).
  set (n := Z.max 1 (Z.of_nat (length (sb_answers payload)))).
  assert (Hn : (1 <= n)%Z) by (unfold n; lia).
  assert (N1 : 1 <= B64.of_int n).
  { change 1 with (B64.rnd (inject_Z 1)) at 1. apply rnd_mono.
    now rewrite <- Zle_Qle. }
  assert (Hd : depth_of (sb_answers payload) = Ret (B64.div t (B64.of_int n))).
  { unfold depth_of. rewrite Et. cbn [bind]. unfold float_truediv. fold n.
    destruct (Z.eqb_spec n 0); [lia | reflexivity]. }
  assert (Hd' : depth_of (sb_answers payload') = Ret (B64.div t' (B64.of_int n))).
  { unfold depth_of. rewrite Et'. cbn [bind]. unfold float_truediv.
    rewrite <- Len. fold n. destruct (Z.eqb_spec n 0); [lia | reflexivity]. }
  pose proof (completeness_value (sb_answers payload)) as Hc.
  pose proof (completeness_value (sb_answers payload')) as Hc'.
  rewrite <- Len in Hc'. fold n in Hc, Hc'.
  assert (Cm : B64.rnd (inject_Z (answered (sb_answers payload)) / inject_Z n)
               <= B64.rnd (inject_Z (answered (sb_answers payload')) / inject_Z n)).
  { apply rnd_mono. apply Qmult_le_compat_r.
    - now rewrite <- Zle_Qle.
    - apply Qinv_le_0_compat. change 0 with (inject_Z 0). rewrite <- Zle_Qle. lia. }
  assert (Dp : B64.div t (B64.of_int n) <= B64.div t' (B64.of_int n)).
  { unfold B64.div. apply rnd_mono. apply Qmult_le_compat_r; [exact Lt|].
    apply Qinv_le_0_compat. lra. }
  destruct (submit_session_answer S g st payload _ _ Hc Hd) as [o R].
  destruct (submit_session_answer S g st payload' _ _ Hc' Hd') as [o' R'].
  eexists _, _, _, _, _, _.
  split; [exact Hc|]. split; [exact Hd|]. split; [exact Hc'|]. split; [exact Hd'|].
  split; [exact Cm|]. split; [exact Dp|]. split; [exact R|]. split; [exact R'|].
  cbn [sr_score]. now apply score_of_mono.
Qed.

Lemma longer_texts_never_lower_score_witness :
  exists resp resp',
    fst (fst (run unavailable
                (submit_session {| sb_session_id := None; sb_user_id := u "u1";
                                   sb_answers := scenario_short_answers |}) 0%nat))
    = Ok resp
    /\ fst (fst (run unavailable
                   (submit_session {| sb_session_id := None; sb_user_id := u "u1";
                                      sb_answers := [ [(u "text", VStr long_text)];
                                                      [(u "text", VStr (u "ja"))] ] |})
                   0%nat))
       = Ok resp'
    /\ sr_score resp <= sr_score resp'.
Proof.
  destruct (longer_texts_never_lower_score nat unavailable 0%nat
              {| sb_session_id := None; sb_user_id := u "u1";
                 sb_answers := scenario_short_answers |}
              {| sb_session_id := None; sb_user_id := u "u1";
                 sb_answers := [ [(u "text", VStr long_text)];
                                 [(u "text", VStr (u "ja"))] ] |})
    as (_ & _ & _ & _ & resp & resp' & _ & _ & _ & _ & _ & _ & R & R' & L).
  - constructor; [exists 4%nat, 120%nat; repeat split; lia|].
    constructor; [exists 0%nat, 2%nat; repeat split; lia | constructor].
  - exists resp, resp'. repeat split; assumption.
Defined.

End ScorerMore.

(** ** Full marks and no marks *)

Section ScorerEdges.

Import B64Facts.
Local Open Scope Q_scope.

Lemma texts_long_len a :
  (exists s, dict_lookup a (u "text") = Some (VStr s) /\ (120 <= length s)%nat) ->
  exists n, text_len a = Some n /\ (120 <= n)%nat.
Proof.
  intros (s & E & L). exists (length s). unfold text_len. now rewrite E.
Qed.

Lemma depth_term_full n : (120 <= n)%nat -> depth_term n = 1.
Proof.
  intros H. unfold depth_term. rewrite lit_one. unfold B64.min, B64.ltb.
  assert (L : 1 <= B64.rnd (inject_Z (Z.of_nat n) / inject_Z 120)).
  { change 1 with (B64.rnd 1) at 1. apply rnd_mono.
    apply Qle_shift_div_l; [reflexivity|]. rewrite Qmult_1_l.
    rewrite <- Zle_Qle. lia. }
  apply Qle_bool_iff in L. rewrite L. reflexivity.
Qed.

Lemma depth_term_blank : depth_term 0 = 0.
Proof. vm_compute. reflexivity. Qed.

Lemma depth_sum_full answers :
  texts_long answers ->
  forall (k : Z) (acc : Q),
    (0 <= k)%Z -> (k + Z.of_nat (length answers) <= 2 ^ 53)%Z ->
    acc == inject_Z k ->
    exists t, depth_sum answers acc = Ret t
              /\ t == inject_Z (k + Z.of_nat (length answers)).
Proof.
  induction 1 as [|a rest Ha _ IH]; intros k acc Hk Hb Hacc.
  - exists acc. split; [reflexivity|]. cbn [length]. now rewrite Z.add_0_r.
  - destruct (texts_long_len a Ha) as (n & Hn & Ln).
    rewrite (depth_sum_step a rest acc n Hn), (depth_term_full n Ln).
    cbn [length] in Hb.
    destruct (IH (k + 1)%Z (B64.add acc 1)) as (t & E & R).
    + lia.
    + lia.
    + unfold B64.add. rewrite Hacc.
      setoid_replace (inject_Z k + 1) with (inject_Z (k + 1))
        by (rewrite inject_Z_plus; reflexivity).
      apply rnd_int. unfold B64.prec. lia.
    + exists t. split; [exact E|]. rewrite R. cbn [length].
      now replace (k + 1 + Z.of_nat (length rest))%Z
        with (k + Z.of_nat (S (length rest)))%Z by lia.
Qed.

Lemma answered_full answers :
  texts_long answers -> answered answers = Z.of_nat (length answers).
Proof.
  unfold answered. induction 1 as [|a rest (s & E & L) _ IH]; [reflexivity|].
  cbn [filter]. unfold dict_get at 1. rewrite E.
  destruct s as [|c s]; [cbn in L; lia|].
  cbn [truthy length Nat.eqb negb]. cbn [length] in IH |- *. lia.
Qed.

(** Full marks.  When there is at least one answer and every answer has
    a text of 120 characters or more, completeness and depth are exactly
    1, the score is exactly 100 and the feedback is the praise. *)
Theorem long_answers_get_full_marks :
  forall (S : Type) (g : gateway S) (st : S) (payload : SubmitSessionInput),
    sb_answers payload <> [] ->
    (Z.of_nat (length (sb_answers payload)) <= 2 ^ 53)%Z ->
    texts_long (sb_answers payload) ->
    completeness_of (sb_answers payload) = Ret 1
    /\ depth_of (sb_answers payload) = Ret 1
    /\ exists o,
         fst (fst (run g (submit_session payload) st))
         = Ok {| sr_score := 100; sr_feedback := fb_good; sr_id := id_of o |}.
Proof.
  intros S g st payload Hne Hlen H.
  set (answers := sb_answers payload) in *.
  assert (Hpos : (1 <= Z.of_nat (length answers))%Z)
    by (destruct answers; [congruence | cbn [length]; lia]).
  assert (Hmax : Z.max 1 (Z.of_nat (length answers)) = Z.of_nat (length answers)) by lia.
  assert (Qn : 0 < inject_Z (Z.of_nat (length answers)))
    by (change 0 with (inject_Z 0); rewrite <- Zlt_Qlt; lia).
  assert (Hc : completeness_of answers = Ret 1).
  { rewrite completeness_value, (answered_full answers H), Hmax. f_equal.
    transitivity (B64.rnd 1); [|vm_compute; reflexivity].
    apply rnd_Qeq_eq. field. lra. }
  assert (Hd : depth_of answers = Ret 1).
  { unfold depth_of.
    destruct (depth_sum_full answers H 0%Z (B64.of_int 0)) as (t & -> & T);
      [lia | lia | reflexivity |].
    cbn [bind]. unfold float_truediv. rewrite Hmax.
    destruct (Z.eqb_spec (Z.of_nat (length answers)) 0) as [E|_]; [lia|].
    f_equal. unfold B64.div.
    transitivity (B64.rnd 1); [|vm_compute; reflexivity].
    apply rnd_Qeq_eq.
    unfold B64.of_int. rewrite rnd_int by (unfold B64.prec; lia).
    rewrite T, Z.add_0_l. field. lra. }
  split; [exact Hc|]. split; [exact Hd|].
  destruct (submit_session_answer S g st payload 1 1 Hc Hd) as [o R].
  exists o. rewrite R.
  assert (Es : score_of 1 1 = 100) by (vm_compute; reflexivity).
  assert (Ef : feedback_of 1 1 = fb_good) by (vm_compute; reflexivity).
  rewrite Es, Ef. reflexivity.
Qed.

Lemma long_answers_get_full_marks_witness :
  exists o,
    fst (fst (run unavailable
                (submit_session {| sb_session_id := None; sb_user_id := u "u1";
                                   sb_answers := [ [(u "text", VStr long_text)] ] |})
                0%nat))
    = Ok {| sr_score := 100; sr_feedback := fb_good; sr_id := id_of o |}.
Proof.
  apply (long_answers_get_full_marks nat unavailable 0%nat
           {| sb_session_id := None; sb_user_id := u "u1";
              sb_answers := [ [(u "text", VStr long_text)] ] |}).
  - discriminate.
  - vm_compute. discriminate.
  - constructor; [|constructor]. exists long_text. split; [reflexivity|].
    vm_compute. lia.
Defined.

Lemma texts_blank_len a :
  dict_lookup a (u "text") = None \/ dict_lookup a (u "text") = Some (VStr []) ->
  text_len a = Some 0%nat.
Proof. unfold text_len. intros [-> | ->]; reflexivity. Qed.

Lemma depth_sum_blank answers :
  texts_blank answers -> depth_sum answers 0 = Ret 0.
Proof.
  induction 1 as [|a rest Ha _ IH]; [reflexivity|].
  rewrite (depth_sum_step a rest 0 0%nat (texts_blank_len a Ha)), depth_term_blank.
  exact IH.
Qed.

Lemma answered_blank answers : texts_blank answers -> answered answers = 0%Z.
Proof.
  unfold answered. induction 1 as [|a rest Ha _ IH]; [reflexivity|].
  cbn [filter]. unfold dict_get at 1.
  destruct Ha as [-> | ->]; cbn [truthy length Nat.eqb negb]; exact IH.
Qed.

(** No usable answer.  When no answer has a text other than the empty
    string, and in particular when there is no answer at all, the score
    is exactly 0 and the feedback holds both pieces of advice. *)
Theorem blank_answers_score_zero :
  forall (S : Type) (g : gateway S) (st : S) (payload : SubmitSessionInput),
    texts_blank (sb_answers payload) ->
    completeness_of (sb_answers payload) = Ret 0
    /\ depth_of (sb_answers payload) = Ret 0
    /\ exists o,
         fst (fst (run g (submit_session payload) st))
         = Ok {| sr_score := 0;
                 sr_feedback := fb_complete ++ u " " ++ fb_deeper;
                 sr_id := id_of o |}.
Proof.
  intros S g st payload H.
  set (answers := sb_answers payload) in *.
  assert (Hc : completeness_of answers = Ret 0).
  { rewrite completeness_value, (answered_blank answers H). reflexivity. }
  assert (Hd : depth_of answers = Ret 0).
  { unfold depth_of. change (B64.of_int 0) with 0.
    rewrite (depth_sum_blank answers H). cbn [bind]. unfold float_truediv.
    destruct (Z.eqb_spec (Z.max 1 (Z.of_nat (length answers))) 0) as [E|_]; [lia|].
    f_equal; apply rnd_zero; unfold B64.div, Qdiv; now rewrite Qmult_0_l. }
  split; [exact Hc|]. split; [exact Hd|].
  destruct (submit_session_answer S g st payload 0 0 Hc Hd) as [o R].
  exists o. rewrite R.
  assert (Es : score_of 0 0 = 0) by (vm_compute; reflexivity).
  assert (Ef : feedback_of 0 0 = fb_complete ++ u " " ++ fb_deeper)
    by (vm_compute; reflexivity).
  rewrite Es, Ef. reflexivity.
Qed.

Lemma blank_answers_score_zero_witness :
  exists o,
    fst (fst (run unavailable
                (submit_session {| sb_session_id := None; sb_user_id := u "u1";
                                   sb_answers := [ []; [(u "text", VStr [])] ] |})
                0%nat))
    = Ok {| sr_score := 0;
            sr_feedback := fb_complete ++ u " " ++ fb_deeper;
            sr_id := id_of o |}.
Proof.
  apply (blank_answers_score_zero nat unavailable 0%nat
           {| sb_session_id := None; sb_user_id := u "u1";
              sb_answers := [ []; [(u "text", VStr [])] ] |}).
  constructor; [now left|]. constructor; [now right | constructor].
Defined.

End ScorerEdges.

(** ** The feedback *)

Section FeedbackFacts.

Import B64Facts.
Local Open Scope Q_scope.

Lemma ltb_true_lt x c : B64.ltb x c = true -> x < c.
Proof.
  unfold B64.ltb. intros E. apply Qle_bool_false.
  now destruct (Qle_bool c x).
Qed.

Lemma ltb_false_le x c : B64.ltb x c = false -> c <= x.
Proof.
  unfold B64.ltb. intros E. apply Qle_bool_iff.
  now destruct (Qle_bool c x).
Qed.

Lemma lt_ltb_true x c : x < c -> B64.ltb x c = true.
Proof.
  intros L. unfold B64.ltb. destruct (Qle_bool c x) eqn:E; [|reflexivity].
  apply Qle_bool_iff in E. lra.
Qed.

Lemma le_ltb_false x c : c <= x -> B64.ltb x c = false.
Proof.
  intros L. unfold B64.ltb. apply Qle_bool_iff in L. now rewrite L.
Qed.

Lemma feedback_cases c d :
  feedback_of c d =
  match B64.ltb c (B64.lit 0.8), B64.ltb d (B64.lit 0.6) with
  | true, true => fb_complete ++ u " " ++ fb_deeper
  | true, false => fb_complete
  | false, true => fb_deeper
  | false, false => fb_good
  end.
Proof.
  unfold feedback_of.
  destruct (B64.ltb c (B64.lit 0.8)); destruct (B64.ltb d (B64.lit 0.6));
    vm_compute; reflexivity.
Qed.

Lemma submit_session_returns (S : Type) (g : gateway S) (st : S) payload :
  texts_sized (sb_answers payload) ->
  exists c d o,
    completeness_of (sb_answers payload) = Ret c
    /\ depth_of (sb_answers payload) = Ret d
    /\ fst (fst (run g (submit_session payload) st))
       = Ok {| sr_score := score_of c d; sr_feedback := feedback_of c d;
               sr_id := id_of o |}.
Proof.
  intros H.
  destruct (completeness_range (sb_answers payload)) as (c & Hc & _).
  destruct (depth_range (sb_answers payload) H) as (d & Hd & _).
  destruct (submit_session_answer S g st payload c d Hc Hd) as [o R].
  exists c, d, o. auto.
Qed.

(** The feedback follows the score.  Whenever the scorer answers, the
    feedback is one of four texts: the praise, the advice to answer
    completely, the advice to go deeper, or both pieces of advice
    joined by a space.  The praise is only given with a score of at
    least 68, and both pieces of advice together only with a score of
    at most 68. *)
Theorem feedback_follows_score :
  forall (S : Type) (g : gateway S) (st : S) (payload : SubmitSessionInput),
    texts_sized (sb_answers payload) ->
    exists r,
      fst (fst (run g (submit_session payload) st)) = Ok r
      /\ In (sr_feedback r)
            [fb_good; fb_complete; fb_deeper; fb_complete ++ u " " ++ fb_deeper]
      /\ (sr_feedback r = fb_good -> 68 <= sr_score r)
      /\ (sr_feedback r = fb_complete ++ u " " ++ fb_deeper -> sr_score r <= 68).
Proof.
  intros S g st payload H.
  destruct (submit_session_returns S g st payload H) as (c & d & o & _ & _ & R).
  eexists. split; [exact R|]. cbn [sr_feedback sr_score].
  assert (E68 : score_of (B64.lit 0.8) (B64.lit 0.6) = 68) by (vm_compute; reflexivity).
  rewrite (feedback_cases c d).
  destruct (B64.ltb c (B64.lit 0.8)) eqn:Ec; destruct (B64.ltb d (B64.lit 0.6)) eqn:Ed.
  - split; [right; right; right; left; reflexivity|].
    split; [intros E; vm_compute in E; discriminate E|].
    intros _. rewrite <- E68. apply score_of_mono.
    + apply Qlt_le_weak, ltb_true_lt, Ec.
    + apply Qlt_le_weak, ltb_true_lt, Ed.
  - split; [right; left; reflexivity|].
    split; intros E; vm_compute in E; discriminate E.
  - split; [right; right; left; reflexivity|].
    split; intros E; vm_compute in E; discriminate E.
  - split; [left; reflexivity|].
    split; [|intros E; vm_compute in E; discriminate E].
    intros _. rewrite <- E68. apply score_of_mono.
    + apply ltb_false_le, Ec.
    + apply ltb_false_le, Ed.
Qed.

Lemma feedback_follows_score_witness :
  exists r,
    fst (fst (run unavailable
                (submit_session {| sb_session_id := None; sb_user_id := u "u1";
                                   sb_answers := scenario_short_answers |})
                0%nat)) = Ok r
    /\ In (sr_feedback r)
          [fb_good; fb_complete; fb_deeper; fb_complete ++ u " " ++ fb_deeper]
    /\ (sr_feedback r = fb_good -> 68 <= sr_score r)
    /\ (sr_feedback r = fb_complete ++ u " " ++ fb_deeper -> sr_score r <= 68).
Proof.
  apply (feedback_follows_score nat unavailable 0%nat
           {| sb_session_id := None; sb_user_id := u "u1";
              sb_answers := scenario_short_answers |}).
  constructor; [reflexivity|]. constructor; [reflexivity | constructor].
Defined.

Lemma answered_le_length answers :
  (0 <= answered answers <= Z.of_nat (length answers))%Z.
Proof.
  unfold answered.
  pose proof (filter_length_le (fun a => truthy (dict_get a (u "text") VNone)) answers).
  lia.
Qed.

Lemma completeness_below_threshold (a n : Z) :
  (0 < n <= 2 ^ 51)%Z -> (5 * a < 4 * n)%Z ->
  B64.ltb (B64.rnd (inject_Z a / inject_Z n)) (B64.lit 0.8) = true.
Proof.
  intros Hn H. apply lt_ltb_true.
  set (pr := B64.lit 0.8 - (1 # 9007199254740992)).
  assert (Rp : B64.rnd pr = Qred pr) by (vm_compute; reflexivity).
  assert (Lp : pr < B64.lit 0.8) by (vm_compute; reflexivity).
  assert (Bp : (4 # 5) - (1 # 11258999068426240) <= pr) by (vm_compute; discriminate).
  apply Qle_lt_trans with (y := pr); [|exact Lp].
  rewrite <- (Qred_correct pr), <- Rp. apply rnd_mono.
  apply Qle_trans with (y := (4 # 5) - (1 # 11258999068426240)); [|exact Bp].
  assert (Qn : 0 < inject_Z n) by (change 0 with (inject_Z 0); rewrite <- Zlt_Qlt; lia).
  apply Qle_shift_div_r; [exact Qn|].
  assert (Ha : inject_Z a <= (4 # 5) * inject_Z n - (1 # 5)).
  { assert (A : (5 * a + 1 <= 4 * n)%Z) by lia.
    rewrite Zle_Qle in A. rewrite inject_Z_plus, !inject_Z_mult in A.
    change (inject_Z 5) with 5 in A. change (inject_Z 4) with 4 in A.
    change (inject_Z 1) with 1 in A. lra. }
  assert (Hb : inject_Z n <= 2251799813685248).
  { change 2251799813685248 with (inject_Z (2 ^ 51)). rewrite <- Zle_Qle. lia. }
  lra.
Qed.

Lemma completeness_at_threshold (a n : Z) :
  (0 < n)%Z -> (4 * n <= 5 * a)%Z ->
  B64.ltb (B64.rnd (inject_Z a / inject_Z n)) (B64.lit 0.8) = false.
Proof.
  intros Hn H. apply le_ltb_false. unfold B64.lit. apply rnd_mono.
  assert (Qn : 0 < inject_Z n) by (change 0 with (inject_Z 0); rewrite <- Zlt_Qlt; lia).
  apply Qle_shift_div_l; [exact Qn|].
  rewrite Zle_Qle in H. rewrite !inject_Z_mult in H.
  change (inject_Z 5) with 5 in H. change (inject_Z 4) with 4 in H.
  lra.
Qed.

(** The advice to answer completely is given exactly below 80 percent.
    For up to 2^51 answers whose texts have a length, the feedback
    starts with the advice to answer all questions if and only if fewer
    than four fifths of the answers (of one, when there is none) have a
    non-empty text. *)
Theorem completeness_advice_threshold :
  forall (S : Type) (g : gateway S) (st : S) (payload : SubmitSessionInput),
    texts_sized (sb_answers payload) ->
    (Z.of_nat (length (sb_answers payload)) <= 2 ^ 51)%Z ->
    exists r,
      fst (fst (run g (submit_session payload) st)) = Ok r
      /\ (Str.startswith fb_complete (sr_feedback r) = true
          <-> (5 * answered (sb_answers payload)
               < 4 * Z.max 1 (Z.of_nat (length (sb_answers payload))))%Z).
Proof.
  intros S g st payload H Hlen.
  destruct (submit_session_returns S g st payload H) as (c & d & o & Hc & _ & R).
  eexists. split; [exact R|]. cbn [sr_feedback].
  rewrite completeness_value in Hc. injection Hc as <-.
  set (a := answered (sb_answers payload)).
  set (n := Z.max 1 (Z.of_nat (length (sb_answers payload)))).
  assert (Hn : (0 < n <= 2 ^ 51)%Z) by (unfold n; lia).
  rewrite feedback_cases.
  destruct (Z_lt_le_dec (5 * a) (4 * n)) as [L|G].
  - rewrite (completeness_below_threshold a n Hn L).
    split; [intros _; exact L|]. intros _.
    destruct (B64.ltb d (B64.lit 0.6)); vm_compute; reflexivity.
  - rewrite (completeness_at_threshold a n (proj1 Hn) G).
    split; [|lia]. intros E.
    destruct (B64.ltb d (B64.lit 0.6)); vm_compute in E; discriminate E.
Qed.

Lemma completeness_advice_threshold_witness :
  exists r,
    fst (fst (run unavailable
                (submit_session {| sb_session_id := None; sb_user_id := u "u1";
                                   sb_answers := scenario_short_answers |})
                0%nat)) = Ok r
    /\ (Str.startswith fb_complete (sr_feedback r) = true
        <-> (5 * answered scenario_short_answers
             < 4 * Z.max 1 (Z.of_nat (length scenario_short_answers)))%Z).
Proof.
  apply (completeness_advice_threshold nat unavailable 0%nat
           {| sb_session_id := None; sb_user_id := u "u1";
              sb_answers := scenario_short_answers |}).
  - constructor; [reflexivity|]. constructor; [reflexivity | constructor].
  - vm_compute. discriminate.
Defined.

End FeedbackFacts.

(** ** The checklist and the health report *)

Lemma str_eqb_neq a b : Str.eqb a b = false <-> a <> b.
Proof.
  unfold Str.eqb. destruct (list_eq_dec N.eq_dec a b); split; congruence.
Qed.

Lemma dict_lookup_set_same d k v : dict_lookup (dict_set d k v) k = Some v.
Proof.
  induction d as [|[k' v'] rest IH]; cbn [dict_set dict_lookup].
  - now rewrite (proj2 (str_eqb_eq k k) eq_refl).
  - destruct (Str.eqb k' k) eqn:E; cbn [dict_lookup]; rewrite E; [reflexivity | exact IH].
Qed.

Lemma dict_lookup_set_other d k v k0 :
  k0 <> k -> dict_lookup (dict_set d k v) k0 = dict_lookup d k0.
Proof.
  intros N. induction d as [|[k' v'] rest IH]; cbn [dict_set dict_lookup].
  - assert (E : Str.eqb k k0 = false) by (apply str_eqb_neq; congruence).
    now rewrite E.
  - destruct (Str.eqb k' k) eqn:E; cbn [dict_lookup].
    + apply str_eqb_eq in E. subst k'.
      assert (E : Str.eqb k k0 = false) by (apply str_eqb_neq; congruence).
      now rewrite E.
    + now rewrite IH.
Qed.

Lemma dict_lookup_del_same d k : dict_lookup (dict_del d k) k = None.
Proof.
  unfold dict_del. induction d as [|[k' v'] rest IH]; cbn [filter dict_lookup fst];
    [reflexivity|].
  destruct (Str.eqb k' k) eqn:E; cbn [negb]; [exact IH|].
  cbn [dict_lookup]. now rewrite E.
Qed.

Lemma dict_lookup_del_other d k k0 :
  k0 <> k -> dict_lookup (dict_del d k) k0 = dict_lookup d k0.
Proof.
  intros N. unfold dict_del.
  induction d as [|[k' v'] rest IH]; cbn [filter dict_lookup fst]; [reflexivity|].
  destruct (Str.eqb k' k) eqn:E; cbn [negb dict_lookup].
  - apply str_eqb_eq in E. subst k'.
    assert (E : Str.eqb k k0 = false) by (apply str_eqb_neq; congruence).
    now rewrite E.
  - now rewrite IH.
Qed.

Lemma id_key_differs : u "id" <> u "_id".
Proof. intros E. vm_compute in E. discriminate E. Qed.

Section ChecklistFacts.

Variable py_str : value -> str.

Lemma public_id_spec (s : dict) :
  dict_get (public_id py_str s) (u "_id") VNone = VNone
  /\ (forall k, k <> u "id" -> k <> u "_id" ->
        dict_lookup (public_id py_str s) k = dict_lookup s k)
  /\ (dict_get s (u "_id") VNone <> VNone ->
        dict_lookup (public_id py_str s) (u "id")
        = Some (VStr (py_str (dict_get s (u "_id") VNone))))
  /\ (dict_get s (u "_id") VNone = VNone -> public_id py_str s = s).
Proof.
  unfold public_id.
  set (k_id := u "id"). set (k__id := u "_id").
  assert (D : k_id <> k__id) by exact id_key_differs.
  destruct (dict_get s k__id VNone) as [| | | | | | |] eqn:E;
    try (repeat split;
         [ unfold dict_get; now rewrite dict_lookup_del_same
         | intros k K1 K2;
           now rewrite (dict_lookup_del_other _ _ _ K2), (dict_lookup_set_other _ _ _ _ K1)
         | intros _;
           now rewrite (dict_lookup_del_other _ _ _ D), dict_lookup_set_same
         | intros A; discriminate A ]).
  repeat split; [exact E | congruence].
Qed.

(** What [get_checklist] makes of the stored items.  The handler always
    answers with a list, and no item of the answer carries a storage
    identifier under ["_id"].  When the read succeeds, the answer has
    one item per stored item, in the same order; an item stored with an
    identifier has it as a string under ["id"], every entry under
    another key is as it was stored, and an item stored without an
    identifier is returned unchanged. *)
Theorem checklist_hides_storage_ids :
  forall (S : Type) (g : gateway S) (st : S) (user_id : str),
    exists items,
      fst (fst (run g (get_checklist py_str user_id) st)) = Ok items
      /\ Forall (fun it => dict_get it (u "_id") VNone = VNone) items
      /\ forall stored,
           fst (gw_get g (u "checklistitem") [(u "user_id", VStr user_id)] 100 st)
           = Returned stored ->
           Forall2
             (fun s it =>
                (forall k, k <> u "id" -> k <> u "_id" ->
                           dict_lookup it k = dict_lookup s k)
                /\ (dict_get s (u "_id") VNone <> VNone ->
                    dict_lookup it (u "id")
                    = Some (VStr (py_str (dict_get s (u "_id") VNone))))
                /\ (dict_get s (u "_id") VNone = VNone -> it = s))
             stored items.
Proof.
  intros S g st user_id. rewrite get_checklist_run.
  destruct (gw_get g (u "checklistitem") [(u "user_id", VStr user_id)] 100 st)
    as [[stored|e] st1]; cbn [fst].
  - exists (map (public_id py_str) stored). split; [reflexivity|]. split.
    + apply Forall_forall. intros it Hin. apply in_map_iff in Hin.
      destruct Hin as (s & <- & _). apply public_id_spec.
    + intros stored' E. injection E as <-.
      induction stored as [|s rest IH]; cbn [map]; constructor; [|exact IH].
      destruct (public_id_spec s) as (_ & A & B & C). auto.
  - exists demo_checklist. split; [reflexivity|]. split.
    + repeat constructor.
    + intros stored E. discriminate E.
Qed.

End ChecklistFacts.

Section HealthFacts.

Variable getenv : str -> option str.
Variable exc_str : exn -> str.

Lemma head_differs (a b : str) : hd 0%N a <> hd 0%N b -> a <> b.
Proof. congruence. Qed.

Lemma flag_not_empty (b : bool) : (if b then u "✅ Set" else u "❌ Not Set") <> [].
Proof. destruct b; intros E; vm_compute in E; discriminate E. Qed.

(** The health report is consistent.  The backend is always reported as
    running.  The connection status is "Connected" exactly when the
    database handle is initialised, and the two settings are reported
    exactly then, the database name never as an empty string.  The
    database is reported as connected and working exactly when listing
    the collections succeeded; at most ten collections are listed, and
    none unless the listing succeeded.  The initial "Not Available"
    value is never reported. *)
Theorem test_database_consistent :
  forall (db : option Database),
    let r := test_database getenv exc_str db in
    tr_backend r = u "✅ Running"
    /\ (tr_connection_status r = u "Connected" <-> db <> None)
    /\ (tr_connection_status r = u "Not Connected" <-> db = None)
    /\ (tr_database_url r = None <-> db = None)
    /\ (tr_database_name r = None <-> db = None)
    /\ tr_database_name r <> Some []
    /\ (tr_database r = u "✅ Connected & Working"
        <-> exists d l, db = Some d /\ db_list_collection_names d = Returned l)
    /\ (length (tr_collections r) <= 10)%nat
    /\ (tr_collections r <> [] -> tr_database r = u "✅ Connected & Working")
    /\ tr_database r <> u "❌ Not Available".
Proof.
  intros db r. subst r. unfold test_database.
  destruct db as [d|].
  - set (url := if env_truthy getenv (u "DATABASE_URL") then u "✅ Set" else u "❌ Not Set").
    set (name := match db_name d with
                 | Some (c :: n) => c :: n
                 | _ => if env_truthy getenv (u "DATABASE_NAME")
                        then u "✅ Set" else u "❌ Not Set"
                 end).
    assert (Hname : name <> []).
    { unfold name. destruct (db_name d) as [[|c n]|];
        [apply flag_not_empty | discriminate | apply flag_not_empty]. }
    destruct (db_list_collection_names d) as [l|e] eqn:El;
      cbn [tr_backend tr_connection_status tr_database_url tr_database_name
           tr_database tr_collections].
    + split; [reflexivity|].
      split; [split; [discriminate | reflexivity]|].
      split; [split; [intros E; apply head_differs in E; [contradiction | vm_compute; discriminate]
                     | discriminate]|].
      split; [split; discriminate|].
      split; [split; discriminate|].
      split; [congruence|].
      split; [split; [intros _; exists d, l; auto | reflexivity]|].
      split; [rewrite length_firstn; lia|].
      split; [reflexivity|].
      apply head_differs. vm_compute. discriminate.
    + split; [reflexivity|].
      split; [split; [discriminate | reflexivity]|].
      split; [split; [intros E; apply head_differs in E; [contradiction | vm_compute; discriminate]
                     | discriminate]|].
      split; [split; discriminate|].
      split; [split; discriminate|].
      split; [congruence|].
      split; [split|].
      * intros E. apply head_differs in E; [contradiction | vm_compute; discriminate].
      * intros (d' & l & E1 & E2). injection E1 as <-. congruence.
      * split; [cbn [length]; lia|].
        split; [congruence|].
        apply head_differs. vm_compute. discriminate.
  - cbn [tr_backend tr_connection_status tr_database_url tr_database_name
         tr_database tr_collections].
    split; [reflexivity|].
    split; [split; [intros E; apply head_differs in E; [contradiction | vm_compute; discriminate]
                   | congruence]|].
    split; [split; reflexivity|].
    split; [split; reflexivity|].
    split; [split; reflexivity|].
    split; [discriminate|].
    split; [split|].
    + intros E. apply head_differs in E; [contradiction | vm_compute; discriminate].
    + intros (d' & l & E1 & _). discriminate E1.
    + split; [cbn [length]; lia|].
      split; [congruence|].
      apply head_differs. vm_compute. discriminate.
Qed.

End HealthFacts.

(** ** Sentiment and risk; the decimals of the score *)

Section SentimentRisk.

Import B64Facts.
Local Open Scope Q_scope.

Lemma sentiment_risk_table n p :
  (0 <= n <= 8)%Z -> (0 <= p <= 7)%Z ->
  (sentiment_of n p = u "positive" ->
     B64.leb (risk_score_of n p) (B64.lit 0.4) = true)
  /\ (sentiment_of n p = u "negative" ->
     B64.geb (risk_score_of n p) (B64.lit 0.35) = true)
  /\ (sentiment_of n p = u "neutral" ->
     B64.geb (risk_score_of n p) (B64.lit 0.2) = true
     /\ B64.leb (risk_score_of n p) (B64.lit 0.55) = true).
Proof.
  intros Hn Hp.
  enumerate n 0%Z 8%Z; enumerate p 0%Z 7%Z;
    vm_compute;
    (split; [intros E; first [reflexivity | discriminate E]|]);
    (split; [intros E; first [reflexivity | discriminate E]|]);
    intros E; first [split; reflexivity | discriminate E].
Qed.

Lemma leb_le x y : B64.leb x y = true -> x <= y.
Proof. unfold B64.leb. apply Qle_bool_iff. Qed.

Lemma geb_le x y : B64.geb x y = true -> y <= x.
Proof. unfold B64.geb. apply Qle_bool_iff. Qed.

Lemma leb_below_geb_false x a b : B64.leb x a = true -> a < b -> B64.geb x b = false.
Proof.
  intros L H. apply leb_le in L. unfold B64.geb.
  destruct (Qle_bool b x) eqn:E; [|reflexivity].
  apply Qle_bool_iff in E. lra.
Qed.

(** The sentiment bounds the risk score.  A text judged positive has a
    risk score of at most 0.4 and never gets the counselling advice; a
    text judged negative has a risk score of at least 0.35; a text
    judged neutral has a risk score between 0.2 and 0.55. *)
Theorem analyze_sentiment_bounds_risk :
  forall (lower : str -> str) (S : Type) (g : gateway S) (st : S)
         (payload : AnalysisInput),
    Str.strip (ai_text payload) <> [] ->
    exists resp,
      fst (fst (run g (analyze_text lower payload) st)) = Ok resp
      /\ (an_sentiment resp = u "positive" ->
          an_risk_score resp <= B64.lit 0.4
          /\ ~ In rec_counselling (an_recommendations resp))
      /\ (an_sentiment resp = u "negative" -> B64.lit 0.35 <= an_risk_score resp)
      /\ (an_sentiment resp = u "neutral" ->
          B64.lit 0.2 <= an_risk_score resp <= B64.lit 0.55).
Proof.
  intros lower S g st payload H.
  destruct (analyze_text_answer lower S g st payload H) as [o R].
  eexists. split; [exact R|].
  unfold analysis. cbn [an_recommendations an_risk_score an_sentiment].
  rewrite !hits_present_count.
  set (lowered := lower (Str.strip (ai_text payload))).
  destruct (present_counts_in_range lowered) as [Bn Bp].
  destruct (sentiment_risk_table _ _ Bn Bp) as (P & N & U).
  split; [|split].
  - intros E. specialize (P E). split; [exact (leb_le _ _ P)|].
    rewrite recs_counselling.
    rewrite (leb_below_geb_false _ _ (B64.lit 0.6) P); [discriminate|].
    vm_compute. reflexivity.
  - intros E. exact (geb_le _ _ (N E)).
  - intros E. destruct (U E) as [A B]. split; [exact (geb_le _ _ A) | exact (leb_le _ _ B)].
Qed.

Lemma analyze_sentiment_bounds_risk_witness :
  exists resp,
    fst (fst (run unavailable (analyze_text Str.lower_latin1 scenario_alcohol) 0%nat))
    = Ok resp
    /\ (an_sentiment resp = u "positive" ->
        an_risk_score resp <= B64.lit 0.4
        /\ ~ In rec_counselling (an_recommendations resp))
    /\ (an_sentiment resp = u "negative" -> B64.lit 0.35 <= an_risk_score resp)
    /\ (an_sentiment resp = u "neutral" ->
        B64.lit 0.2 <= an_risk_score resp <= B64.lit 0.55).
Proof.
  apply (analyze_sentiment_bounds_risk Str.lower_latin1 nat unavailable 0%nat
           scenario_alcohol).
  vm_compute. discriminate.
Defined.

Lemma score_of_tenth c d :
  0 <= c <= 1 -> 0 <= d <= 1 ->
  exists k, (0 <= k <= 1000)%Z /\ score_of c d = B64.lit (inject_Z k / 10).
Proof.
  intros Rc Rd. pose proof (score_range c d Rc Rd) as L.
  unfold score_of, B64.round1 in *.
  remember (B64.rne ((B64.of_int 100 * (B64.lit 0.4 * c + B64.lit 0.6 * d))%b64 * 10))
    as k eqn:Ek.
  clear Ek. destruct L as [L0 L1].
  exists k. split; [|reflexivity].
  assert (Lo : B64.rnd (- 1 # 10) < 0) by (vm_compute; reflexivity).
  assert (Hi : 100 < B64.rnd (1001 # 10)) by (vm_compute; reflexivity).
  destruct (Z_lt_le_dec k 0) as [K0|K0].
  - exfalso.
    assert (A : B64.rnd (inject_Z k / 10) <= B64.rnd (- 1 # 10)).
    { apply rnd_mono. apply Qle_shift_div_r; [reflexivity|].
      assert (B : (k <= -1)%Z) by lia. rewrite Zle_Qle in B.
      change (inject_Z (-1)) with (- 1 # 1) in B. lra. }
    lra.
  - destruct (Z_lt_le_dec 1000 k) as [K1|K1]; [|lia].
    exfalso.
    assert (A : B64.rnd (1001 # 10) <= B64.rnd (inject_Z k / 10)).
    { apply rnd_mono. apply Qle_shift_div_l; [reflexivity|].
      assert (B : (1001 <= k)%Z) by lia. rewrite Zle_Qle in B.
      change (inject_Z 1001) with (1001 # 1) in B. lra. }
    lra.
Qed.

(** The score has one decimal.  Whenever the scorer answers, the score
    is the binary64 number nearest to [k / 10] for a whole number [k]
    between 0 and 1000. *)
Theorem score_has_one_decimal :
  forall (S : Type) (g : gateway S) (st : S) (payload : SubmitSessionInput),
    texts_sized (sb_answers payload) ->
    exists r k,
      fst (fst (run g (submit_session payload) st)) = Ok r
      /\ (0 <= k <= 1000)%Z
      /\ sr_score r = B64.lit (inject_Z k / 10).
Proof.
  intros S g st payload H.
  destruct (completeness_range (sb_answers payload)) as (c & Hc & Rc).
  destruct (depth_range (sb_answers payload) H) as (d & Hd & Rd).
  destruct (submit_session_answer S g st payload c d Hc Hd) as [o R].
  destruct (score_of_tenth c d Rc Rd) as (k & Hk & Ek).
  eexists _, k. split; [exact R|]. split; [exact Hk | exact Ek].
Qed.

Lemma score_has_one_decimal_witness :
  exists r k,
    fst (fst (run unavailable
                (submit_session {| sb_session_id := None; sb_user_id := u "u1";
                                   sb_answers := scenario_short_answers |})
                0%nat)) = Ok r
    /\ (0 <= k <= 1000)%Z
    /\ sr_score r = B64.lit (inject_Z k / 10).
Proof.
  apply (score_has_one_decimal nat unavailable 0%nat
           {| sb_session_id := None; sb_user_id := u "u1";
              sb_answers := scenario_short_answers |}).
  constructor; [reflexivity|]. constructor; [reflexivity | constructor].
Defined.

End SentimentRisk.
